(** * MyFitnessPal to Notion synchronisation ([nutrition.py])

    A shallow embedding of the synchronisation script and the properties of
    its reader, locator, reconciler and writer.

    Python dictionaries are finite maps with string keys, Python exceptions
    are an explicit result type, and the calls to the two remote services
    (the MyFitnessPal client and the Notion client) go through a record of
    handlers over an abstract world, every call being recorded in a trace.
    Console output ([print]) is not modelled. *)

From Stdlib Require Import ZArith QArith Ascii String Floats.
From stdpp Require Import gmap strings list fin_maps.

Close Scope Q_scope.
Open Scope Z_scope.

(** ** Python values *)

(** The values that occur in the provider's dictionaries, in a snapshot and
    in a Notion number property.  A Python [float] is represented by the
    rational number it denotes; the sums and differences of floats are
    rounded to binary64 as Python rounds them.  Infinities and NaN, and
    with them the results beyond the largest binary64 number, are outside
    the model. *)
Inductive value : Type :=
  | VNone
  | VInt (z : Z)
  | VFloat (q : Q)
  | VStr (s : string).

Inductive exn : Type :=
  | KeyError
  | TypeError
  | RemoteError.

(** The outcome of a Python expression or call: a value or a raised
    exception. *)
Inductive res (A : Type) : Type :=
  | Val (a : A)
  | Raise (e : exn).
Arguments Val {A} a.
Arguments Raise {A} e.

Global Instance res_ret : MRet res := fun _ a => Val a.
Global Instance res_bind : MBind res := fun _ _ k r =>
  match r with
  | Val a => k a
  | Raise e => Raise e
  end.

(** The rational denoted by a number, [None] for a value that is no number. *)
Definition number (v : value) : option Q :=
  match v with
  | VInt z => Some (inject_Z z)
  | VFloat q => Some q
  | _ => None
  end.

Definition is_number (v : value) : Prop := is_Some (number v).

(** [bool(v)]. *)
Definition truthy (v : value) : bool :=
  match v with
  | VNone => false
  | VInt z => negb (z =? 0)
  | VFloat q => negb (Qnum q =? 0)
  | VStr s => negb (String.eqb s "")
  end.

(** [v or w]. *)
Definition py_or (v w : value) : value :=
  if truthy v then v else w.

(** Rounding of a rational to the nearest integer, a tie going to the even
    neighbour: what [round(x)] computes for a [float]. *)
Definition round_half_even (q : Q) : Z :=
  let n := Qnum q in
  let d := Z.pos (Qden q) in
  let f := n / d in
  match 2 * (n mod d) ?= d with
  | Lt => f
  | Gt => f + 1
  | Eq => if Z.even f then f else f + 1
  end.

(** *** Binary64 *)

(** [q / 2^c] and [m * 2^c], for an exponent [c] of either sign. *)
Definition scale (q : Q) (c : Z) : Q :=
  if 0 <=? c then Qnum q # (Qden q * Z.to_pos (2 ^ c))
  else (Qnum q * 2 ^ (- c)) # Qden q.

Definition unscale (m c : Z) : Q :=
  if 0 <=? c then inject_Z (m * 2 ^ c) else m # Z.to_pos (2 ^ (- c)).

(** The binary exponent of a rational that is not 0: the [e] with
    [2^e <= |q| < 2^(e+1)]. *)
Definition exponent (q : Q) : Z :=
  let k := Z.log2 (Z.abs (Qnum q)) - Z.log2 (Z.pos (Qden q)) in
  let s := scale q k in
  if Z.pos (Qden s) <=? Z.abs (Qnum s) then k else k - 1.

(** The binary64 number nearest to a rational, a tie going to the even
    significand: 53 bits of significand at the exponent of the rational,
    and the fixed spacing [2^-1074] below [2^-1022]. *)
Definition b64 (q : Q) : Q :=
  if Qnum q =? 0 then 0%Q
  else
    let c := Z.max (exponent q) (-1022) - 52 in
    Qred (unscale (round_half_even (scale q c)) c).

(** The float an operand of mixed arithmetic stands for: an [int] is
    converted to the nearest binary64 number. *)
Definition as_double (v : value) : option Q :=
  match v with
  | VInt z => Some (b64 (inject_Z z))
  | VFloat q => Some q
  | _ => None
  end.

(** [a + b] and [a - b] on numbers: [int] with [int] stays [int] and is
    exact; with a [float] the [int] is converted and the result is the
    binary64 number nearest to the exact one; every other pair of operands
    that reaches the script raises [TypeError].  An [int] or a result
    beyond the binary64 range ([OverflowError] and [inf] in Python) is
    outside the model. *)
Definition py_add (a b : value) : res value :=
  match a, b with
  | VInt x, VInt y => Val (VInt (x + y))
  | VInt x, VFloat y => Val (VFloat (b64 (b64 (inject_Z x) + y)%Q))
  | VFloat x, VInt y => Val (VFloat (b64 (x + b64 (inject_Z y))%Q))
  | VFloat x, VFloat y => Val (VFloat (b64 (x + y)%Q))
  | _, _ => Raise TypeError
  end.

Definition py_sub (a b : value) : res value :=
  match a, b with
  | VInt x, VInt y => Val (VInt (x - y))
  | VInt x, VFloat y => Val (VFloat (b64 (b64 (inject_Z x) - y)%Q))
  | VFloat x, VInt y => Val (VFloat (b64 (x - b64 (inject_Z y))%Q))
  | VFloat x, VFloat y => Val (VFloat (b64 (x - y)%Q))
  | _, _ => Raise TypeError
  end.

(** [round(v)] with one argument: the identity on [int], the nearest
    integer of a [float], [TypeError] otherwise. *)
Definition py_round (v : value) : res value :=
  match v with
  | VInt z => Val (VInt z)
  | VFloat q => Val (VInt (round_half_even q))
  | _ => Raise TypeError
  end.

(** [a == b]: numbers compare by value across [int] and [float]; values of
    different kinds are unequal. *)
Definition py_eq (a b : value) : bool :=
  match a, b with
  | VNone, VNone => true
  | VStr s, VStr t => String.eqb s t
  | _, _ =>
      match number a, number b with
      | Some x, Some y => Qeq_bool x y
      | _, _ => false
      end
  end.

Definition py_ne (a b : value) : bool := negb (py_eq a b).

(** [a > 0]: defined on numbers only. *)
Definition py_gt_zero (a : value) : res bool :=
  match number a with
  | Some q => Val (0 <? Qnum q)
  | None => Raise TypeError
  end.

(** [d[k]] and [d.get(k, default)]. *)
Definition getitem {A} (d : gmap string A) (k : string) : res A :=
  match d !! k with
  | Some v => Val v
  | None => Raise KeyError
  end.

Definition dict_get {A} (d : gmap string A) (k : string) (default : A) : A :=
  match d !! k with
  | Some v => v
  | None => default
  end.

(** ** Data of the two remote services *)

(** A [datetime.date]. *)
Record date : Type := { year : Z; month : Z; day : Z }.

Definition digit (n : Z) : ascii := ascii_of_nat (48 + Z.to_nat (n mod 10)).

(** The digits of a year as [%Y] prints them: without padding, so three
    digits for the year 999. *)
Definition year_digits (y : Z) (rest : string) : string :=
  let d4 := String (digit y) rest in
  let d3 := String (digit (y / 10)) d4 in
  let d2 := String (digit (y / 100)) d3 in
  if y <? 10 then d4
  else if y <? 100 then d3
  else if y <? 1000 then d2
  else String (digit (y / 1000)) d2.

(** [d.strftime('%Y-%m-%d')], for the years 1 to 9999 of [datetime.date]. *)
Definition strftime (d : date) : string :=
  year_digits (year d)
  (String "-"%char (String (digit (month d / 10)) (String (digit (month d))
  (String "-"%char (String (digit (day d / 10)) (String (digit (day d))
  EmptyString)))))).

(** What [client.get_date] returns: the totals of the logged food and the
    groups of logged exercise, each with its entries. *)
Record Entry : Type := { nutrition_information : gmap string value }.
Record Exercise : Type := { entries : list Entry }.
Record Day : Type := { totals : gmap string value; exercises : list Exercise }.

(** A property object of a Notion page, stored or in a request:
    [{"number": n}], [{"date": {"start": s}}], or an object of another type
    (which has no ["number"] member). *)
Inductive property : Type :=
  | PNumber (n : value)
  | PDate (start : value)
  | POther.

(** A page object as the store returns it. *)
Record page : Type := {
  page_id : string;
  page_properties : gmap string property
}.

(** The keyword arguments of [pages.create] and of [pages.update]. *)
Record page_data : Type := {
  pd_parent_database_id : string;
  pd_properties : gmap string property;
  pd_icon_type : string;
  pd_icon_emoji : string
}.

Record update_data : Type := {
  ud_page_id : string;
  ud_properties : gmap string property
}.

(** ** Configuration and property names *)

Record config : Type := {
  NOTION_TOKEN : option string;
  NOTION_DATABASE_ID : option string
}.

Definition NOTION_DATE_PROP : string := "Date".
Definition NOTION_CALS_IN_PROP : string := "Calories In".
Definition NOTION_CALS_OUT_PROP : string := "Calories Out (Exercise)".
Definition NOTION_NET_CALS_PROP : string := "Net Calories".
Definition NOTION_PROTEIN_PROP : string := "Protein (g)".
Definition NOTION_CARBS_PROP : string := "Carbs (g)".
Definition NOTION_FATS_PROP : string := "Fats (g)".
Definition NOTION_WATER_PROP : string := "Water (ml)".

(** ** Calls to the outside and their trace *)

Inductive event : Type :=
  | MfpClient
  | MfpGetDate (y m d : Z)
  | MfpGetWater (d : date)
  | NotionClient (auth : string)
  | NotionQuery (database_id property equals : string)
  | NotionCreate (pd : page_data)
  | NotionUpdate (ud : update_data).

(** The behaviour of the outside over a world [W]: each call returns or
    raises and moves the world on.  A query answers [Some results], or
    [None] for a response that is falsy. *)
Record remote (W : Type) : Type := {
  mfp_Client : W → res unit * W;
  mfp_get_date : Z → Z → Z → W → res (option Day) * W;
  mfp_get_water : date → W → res value * W;
  notion_query : string → string → string → W → res (option (list page)) * W;
  notion_create : page_data → W → res unit * W;
  notion_update : update_data → W → res unit * W;
  clock_today : W → date
}.
Arguments mfp_Client {W}.
Arguments mfp_get_date {W}.
Arguments mfp_get_water {W}.
Arguments notion_query {W}.
Arguments notion_create {W}.
Arguments notion_update {W}.
Arguments clock_today {W}.

(** A computation of the script: from a world to an outcome, the world
    after it and the calls it made, in order. *)
Definition M (W A : Type) : Type := W → res A * W * list event.

Global Instance M_ret {W} : MRet (M W) := fun _ a w => (Val a, w, []).
Global Instance M_bind {W} : MBind (M W) := fun _ _ k m w =>
  match m w with
  | (Val a, w1, t1) => let '(r, w2, t2) := k a w1 in (r, w2, t1 ++ t2)
  | (Raise e, w1, t1) => (Raise e, w1, t1)
  end.

(** [try: m except Exception: h]. *)
Definition try_except {W A} (m h : M W A) : M W A := fun w =>
  match m w with
  | (Val a, w1, t1) => (Val a, w1, t1)
  | (Raise e, w1, t1) => let '(r, w2, t2) := h w1 in (r, w2, t1 ++ t2)
  end.

Definition call {W A} (ev : event) (f : W → res A * W) : M W A := fun w =>
  let '(r, w1) := f w in (r, w1, [ev]).

Definition lift {W A} (r : res A) : M W A := fun w => (r, w, []).

Definition trace_of {W A} (x : res A * W * list event) : list event := x.2.
Definition outcome_of {W A} (x : res A * W * list event) : res A := x.1.1.
Definition world_of {W A} (x : res A * W * list event) : W := x.1.2.

(** ** The script *)

(** The loop of [get_mfp_data_for_date] over the entries of a group and
    over the groups: [calories_out_exercise += entry...get('calories burned', 0)]. *)
Fixpoint add_entries (acc : value) (es : list Entry) : res value :=
  match es with
  | [] => Val acc
  | entry :: es' =>
      acc' ← py_add acc (dict_get (nutrition_information entry) "calories burned" (VInt 0));
      add_entries acc' es'
  end.

Fixpoint add_groups (acc : value) (gs : list Exercise) : res value :=
  match gs with
  | [] => Val acc
  | exercise_group :: gs' =>
      acc' ← add_entries acc (entries exercise_group);
      add_groups acc' gs'
  end.

Definition exercise_calories (d : Day) : res value :=
  match exercises d with
  | [] => Val (VInt 0)
  | gs => add_groups (VInt 0) gs
  end.

(** [if prop_name in props and props[prop_name]['number'] is not None]:
    the stored number, 0 for a missing property or a null number; a stored
    property without a ["number"] member raises [KeyError]. *)
Definition prop_number (p : property) : res value :=
  match p with
  | PNumber n => Val n
  | _ => Raise KeyError
  end.

Definition get_notion_number (props : gmap string property) (prop_name : string)
  : res value :=
  match props !! prop_name with
  | Some p =>
      n ← prop_number p;
      match n with
      | VNone => Val (VInt 0)
      | _ => Val n
      end
  | None => Val (VInt 0)
  end.

(** [get_notion_number(prop_name) != new_data[key]]. *)
Definition field_differs (props : gmap string property) (prop_name : string)
    (new_data : gmap string value) (key : string) : res bool :=
  stored ← get_notion_number props prop_name;
  new ← getitem new_data key;
  mret (py_ne stored new).

(** [a or b] on conditions: [b] is not evaluated when [a] holds. *)
Definition or_else (a b : res bool) : res bool :=
  x ← a; if x : bool then Val true else b.

Definition entry_needs_update (existing_page : page) (new_data : gmap string value)
  : res bool :=
  let props := page_properties existing_page in
  changed ←
    or_else (field_differs props NOTION_CALS_IN_PROP new_data "calories_in")
   (or_else (field_differs props NOTION_CALS_OUT_PROP new_data "calories_out_exercise")
   (or_else (field_differs props NOTION_NET_CALS_PROP new_data "net_calories")
   (or_else (field_differs props NOTION_PROTEIN_PROP new_data "protein")
   (or_else (field_differs props NOTION_CARBS_PROP new_data "carbs")
   (or_else (field_differs props NOTION_FATS_PROP new_data "fats")
            (match props !! NOTION_WATER_PROP with
             | Some _ => field_differs props NOTION_WATER_PROP new_data "water_ml"
             | None => Val false
             end))))));
  if changed : bool then Val true
  else
    match props !! NOTION_WATER_PROP with
    | None =>
        more ← py_gt_zero (dict_get new_data "water_ml" (VInt 0));
        if more : bool then Val true else Val false
    | Some _ => Val false
    end.

(** The [properties] dictionary of [create_notion_entry]: the literal with
    the date and the six numbers, then
    [if "water_ml" in mfp_data and mfp_data["water_ml"] is not None:
    properties[NOTION_WATER_PROP] = {"number": mfp_data["water_ml"]}]. *)
Definition create_properties (mfp_data : gmap string value)
  : res (gmap string property) :=
  start ← getitem mfp_data "date";
  calories_in ← getitem mfp_data "calories_in";
  calories_out_exercise ← getitem mfp_data "calories_out_exercise";
  net_calories ← getitem mfp_data "net_calories";
  protein ← getitem mfp_data "protein";
  carbs ← getitem mfp_data "carbs";
  fats ← getitem mfp_data "fats";
  let properties : gmap string property :=
    <[NOTION_FATS_PROP := PNumber fats]>
    (<[NOTION_CARBS_PROP := PNumber carbs]>
    (<[NOTION_PROTEIN_PROP := PNumber protein]>
    (<[NOTION_NET_CALS_PROP := PNumber net_calories]>
    (<[NOTION_CALS_OUT_PROP := PNumber calories_out_exercise]>
    (<[NOTION_CALS_IN_PROP := PNumber calories_in]>
    (<[NOTION_DATE_PROP := PDate start]> ∅)))))) in
  mret (match mfp_data !! "water_ml" with
        | Some VNone => properties
        | Some water_ml => <[NOTION_WATER_PROP := PNumber water_ml]> properties
        | None => properties
        end).

(** The [properties] dictionary of [update_notion_entry]: the literal with
    the six numbers, then the same test on the water. *)
Definition update_properties (mfp_data : gmap string value)
  : res (gmap string property) :=
  calories_in ← getitem mfp_data "calories_in";
  calories_out_exercise ← getitem mfp_data "calories_out_exercise";
  net_calories ← getitem mfp_data "net_calories";
  protein ← getitem mfp_data "protein";
  carbs ← getitem mfp_data "carbs";
  fats ← getitem mfp_data "fats";
  let properties : gmap string property :=
    <[NOTION_FATS_PROP := PNumber fats]>
    (<[NOTION_CARBS_PROP := PNumber carbs]>
    (<[NOTION_PROTEIN_PROP := PNumber protein]>
    (<[NOTION_NET_CALS_PROP := PNumber net_calories]>
    (<[NOTION_CALS_OUT_PROP := PNumber calories_out_exercise]>
    (<[NOTION_CALS_IN_PROP := PNumber calories_in]> ∅))))) in
  mret (match mfp_data !! "water_ml" with
        | Some VNone => properties
        | Some water_ml => <[NOTION_WATER_PROP := PNumber water_ml]> properties
        | None => properties
        end).

Definition make_page_data (database_id : string)
    (properties : gmap string property) : page_data :=
  {| pd_parent_database_id := database_id;
     pd_properties := properties;
     pd_icon_type := "emoji";
     pd_icon_emoji := "🍎" |}.

Definition make_update_data (page_id : string)
    (properties : gmap string property) : update_data :=
  {| ud_page_id := page_id; ud_properties := properties |}.

(** [bool(d)] of a dictionary and of an optional string. *)
Definition dict_truthy {A} (d : gmap string A) : bool := negb (size d =? 0)%nat.

Definition str_truthy (s : option string) : bool :=
  match s with
  | Some s => negb (String.eqb s "")
  | None => false
  end.

Section Script.
Context {W : Type} (R : remote W).

(** [get_mfp_client]: [myfitnesspal.Client()], which looks for the
    browser's cookies. *)
Definition get_mfp_client : M W unit := call MfpClient (mfp_Client R).

(** [get_mfp_data_for_date(client, target_date)]; [None] is Python's
    [None].  The totals [sugar] and [sodium] are read and never used. *)
Definition get_mfp_data_for_date (target_date : date)
  : M W (option (gmap string value)) :=
  try_except
    (d ← call (MfpGetDate (year target_date) (month target_date) (day target_date))
              (mfp_get_date R (year target_date) (month target_date) (day target_date));
     match d with
     | None => mret None
     | Some d =>
         let calories_in := dict_get (totals d) "calories" (VInt 0) in
         let protein := dict_get (totals d) "protein" (VInt 0) in
         let carbs := dict_get (totals d) "carbohydrates" (VInt 0) in
         let fats := dict_get (totals d) "fat" (VInt 0) in
         water_ml ← call (MfpGetWater target_date) (mfp_get_water R target_date);
         calories_out_exercise ← lift (exercise_calories d);
         net_calories ← lift (py_sub calories_in calories_out_exercise);
         r_calories_in ← lift (py_round (py_or calories_in (VInt 0)));
         r_calories_out ← lift (py_round (py_or calories_out_exercise (VInt 0)));
         r_net_calories ← lift (py_round (py_or net_calories (VInt 0)));
         r_protein ← lift (py_round (py_or protein (VInt 0)));
         r_carbs ← lift (py_round (py_or carbs (VInt 0)));
         r_fats ← lift (py_round (py_or fats (VInt 0)));
         mret (Some
           (<["water_ml" := match water_ml with VNone => VInt 0 | _ => water_ml end]>
           (<["fats" := r_fats]>
           (<["carbs" := r_carbs]>
           (<["protein" := r_protein]>
           (<["net_calories" := r_net_calories]>
           (<["calories_out_exercise" := r_calories_out]>
           (<["calories_in" := r_calories_in]>
           (<["date" := VStr (strftime target_date)]> ∅)))))))))
     end)
    (mret None).

(** [entry_exists(notion_client, database_id, entry_date_str)]. *)
Definition entry_exists (database_id entry_date_str : string) : M W (option page) :=
  try_except
    (response ← call (NotionQuery database_id NOTION_DATE_PROP entry_date_str)
                     (notion_query R database_id NOTION_DATE_PROP entry_date_str);
     match response with
     | Some (first :: _) => mret (Some first)
     | _ => mret None
     end)
    (mret None).

(** [create_notion_entry(notion_client, database_id, mfp_data)]; both
    messages read [mfp_data['date']]. *)
Definition create_notion_entry (database_id : string)
    (mfp_data : gmap string value) : M W unit :=
  properties ← lift (create_properties mfp_data);
  let page_data := make_page_data database_id properties in
  try_except
    (_ ← call (NotionCreate page_data) (notion_create R page_data);
     _ ← lift (getitem mfp_data "date");
     mret tt)
    (_ ← lift (getitem mfp_data "date");
     mret tt).

(** [update_notion_entry(notion_client, page_id, mfp_data)]. *)
Definition update_notion_entry (page_id : string)
    (mfp_data : gmap string value) : M W unit :=
  properties ← lift (update_properties mfp_data);
  let update_data := make_update_data page_id properties in
  try_except
    (_ ← call (NotionUpdate update_data) (notion_update R update_data);
     _ ← lift (getitem mfp_data "date");
     mret tt)
    (_ ← lift (getitem mfp_data "date");
     mret tt).

(** The body of the loop of [main] for one date. *)
Definition process_date (database_id : string) (target_date : date) : M W unit :=
  let date_str := strftime target_date in
  mfp_data ← get_mfp_data_for_date target_date;
  match mfp_data with
  | None => mret tt
  | Some mfp_data =>
      if negb (dict_truthy mfp_data) then mret tt
      else
        existing_page ← entry_exists database_id date_str;
        match existing_page with
        | Some existing_page =>
            needed ← lift (entry_needs_update existing_page mfp_data);
            if needed : bool
            then update_notion_entry (page_id existing_page) mfp_data
            else mret tt
        | None => create_notion_entry database_id mfp_data
        end
  end.

(** [for target_date in dates_to_sync: ...]. *)
Fixpoint sync_dates (database_id : string) (dates_to_sync : list date) : M W unit :=
  match dates_to_sync with
  | [] => mret tt
  | target_date :: rest =>
      _ ← process_date database_id target_date;
      sync_dates database_id rest
  end.

(** [main()]: the two configuration checks, the two clients, then the
    loop over [dates_to_sync = [today_local]]. *)
Definition main (cfg : config) : M W unit :=
  if negb (str_truthy (NOTION_TOKEN cfg)) then mret tt
  else if negb (str_truthy (NOTION_DATABASE_ID cfg)) then mret tt
  else
    mfp_client ← try_except (_ ← get_mfp_client; mret (Some tt)) (mret None);
    match mfp_client with
    | None => mret tt
    | Some _ =>
        let token := default "" (NOTION_TOKEN cfg) in
        let database_id := default "" (NOTION_DATABASE_ID cfg) in
        _ ← call (NotionClient token) (fun w => (Val tt, w));
        today_local ← (fun w => (Val (clock_today R w), w, []));
        sync_dates database_id [today_local]
    end.
End Script.

Arguments get_mfp_client {W} R.
Arguments get_mfp_data_for_date {W} R target_date.
Arguments entry_exists {W} R database_id entry_date_str.
Arguments create_notion_entry {W} R database_id mfp_data.
Arguments update_notion_entry {W} R page_id mfp_data.
Arguments process_date {W} R database_id target_date.
Arguments sync_dates {W} R database_id dates_to_sync.
Arguments main {W} R cfg.

(** ** Vocabulary of the properties *)

Definition is_float (v : value) : bool :=
  match v with
  | VFloat _ => true
  | _ => false
  end.

(** The snapshot [get_mfp_data_for_date] builds from the day and the water
    the provider returned: its part after the two calls. *)
Definition snapshot_of (target_date : date) (d : Day) (water_ml : value)
  : res (gmap string value) :=
  let calories_in := dict_get (totals d) "calories" (VInt 0) in
  let protein := dict_get (totals d) "protein" (VInt 0) in
  let carbs := dict_get (totals d) "carbohydrates" (VInt 0) in
  let fats := dict_get (totals d) "fat" (VInt 0) in
  calories_out_exercise ← exercise_calories d;
  net_calories ← py_sub calories_in calories_out_exercise;
  r_calories_in ← py_round (py_or calories_in (VInt 0));
  r_calories_out ← py_round (py_or calories_out_exercise (VInt 0));
  r_net_calories ← py_round (py_or net_calories (VInt 0));
  r_protein ← py_round (py_or protein (VInt 0));
  r_carbs ← py_round (py_or carbs (VInt 0));
  r_fats ← py_round (py_or fats (VInt 0));
  mret (<["water_ml" := match water_ml with VNone => VInt 0 | _ => water_ml end]>
       (<["fats" := r_fats]>
       (<["carbs" := r_carbs]>
       (<["protein" := r_protein]>
       (<["net_calories" := r_net_calories]>
       (<["calories_out_exercise" := r_calories_out]>
       (<["calories_in" := r_calories_in]>
       (<["date" := VStr (strftime target_date)]> ∅)))))))).

(** A value that is a number is not negative. *)
Definition nonneg (v : value) : Prop :=
  ∀ q, number v = Some q → 0 ≤ Qnum q.

Definition burned (e : Entry) : value :=
  dict_get (nutrition_information e) "calories burned" (VInt 0).

(** The number stored under a property name, a missing property, a null
    number and a property of another type counting as 0. *)
Definition stored_number (props : gmap string property) (prop_name : string) : Q :=
  match props !! prop_name with
  | Some (PNumber v) => default 0%Q (number v)
  | _ => 0%Q
  end.

(** The number a snapshot holds under a key. *)
Definition new_number (new_data : gmap string value) (key : string) : Q :=
  match new_data !! key with
  | Some v => default 0%Q (number v)
  | None => 0%Q
  end.

(** The six core fields: property name and snapshot key. *)
Definition core_fields : list (string * string) :=
  [ (NOTION_CALS_IN_PROP, "calories_in");
    (NOTION_CALS_OUT_PROP, "calories_out_exercise");
    (NOTION_NET_CALS_PROP, "net_calories");
    (NOTION_PROTEIN_PROP, "protein");
    (NOTION_CARBS_PROP, "carbs");
    (NOTION_FATS_PROP, "fats") ].

Definition numeric_props : list string :=
  core_fields.*1 ++ [NOTION_WATER_PROP].

Definition numeric_keys : list string :=
  core_fields.*2 ++ ["water_ml"].

Definition is_numberb (v : value) : bool :=
  match number v with
  | Some _ => true
  | None => false
  end.

(** A stored page in which the seven numeric properties, where present, are
    number properties holding a number or null. *)
Definition typed_prop (o : option property) : bool :=
  match o with
  | None => true
  | Some (PNumber VNone) => true
  | Some (PNumber v) => is_numberb v
  | Some _ => false
  end.

Definition number_typed (props : gmap string property) : bool :=
  forallb (λ name, typed_prop (props !! name)) numeric_props.

(** A snapshot with a number under each of the seven numeric keys. *)
Definition numeric_snapshot (new_data : gmap string value) : bool :=
  forallb (λ key, match new_data !! key with
                  | Some v => is_numberb v
                  | None => false
                  end) numeric_keys.

(** The fields of a snapshot, as rounded from the provider's values:
    [out] is the sum over the exercise entries and [net] the difference
    taken before rounding. *)
Definition snapshot_fields (td : date) (d : Day) (water : value)
    (snap : gmap string value) (out net : value) : Prop :=
  exercise_calories d = Val out ∧
  py_sub (dict_get (totals d) "calories" (VInt 0)) out = Val net ∧
  snap !! "date" = Some (VStr (strftime td)) ∧
  Val <$> snap !! "calories_in"
    = Some (py_round (py_or (dict_get (totals d) "calories" (VInt 0)) (VInt 0))) ∧
  Val <$> snap !! "calories_out_exercise" = Some (py_round (py_or out (VInt 0))) ∧
  Val <$> snap !! "net_calories" = Some (py_round (py_or net (VInt 0))) ∧
  Val <$> snap !! "protein"
    = Some (py_round (py_or (dict_get (totals d) "protein" (VInt 0)) (VInt 0))) ∧
  Val <$> snap !! "carbs"
    = Some (py_round (py_or (dict_get (totals d) "carbohydrates" (VInt 0)) (VInt 0))) ∧
  Val <$> snap !! "fats"
    = Some (py_round (py_or (dict_get (totals d) "fat" (VInt 0)) (VInt 0))) ∧
  snap !! "water_ml" = Some (match water with VNone => VInt 0 | _ => water end) ∧
  dict_truthy snap = true.

Definition is_store_event (ev : event) : bool :=
  match ev with
  | NotionQuery _ _ _ | NotionCreate _ | NotionUpdate _ => true
  | _ => false
  end.

Definition is_write (ev : event) : bool :=
  match ev with
  | NotionCreate _ | NotionUpdate _ => true
  | _ => false
  end.

Definition is_update (ev : event) : bool :=
  match ev with
  | NotionUpdate _ => true
  | _ => false
  end.

(** ** A small store and provider to run the script on *)

Record demo_world : Type := {
  dw_day : res (option Day);
  dw_water : res value;
  dw_query_fails : bool;
  dw_pages : list page
}.

Definition dated (equals : string) (p : page) : bool :=
  match page_properties p !! NOTION_DATE_PROP with
  | Some (PDate (VStr s)) => String.eqb s equals
  | _ => false
  end.

(** An update replaces the properties the request names and keeps the
    others. *)
Definition patch (ud : update_data) (p : page) : page :=
  if String.eqb (page_id p) (ud_page_id ud)
  then {| page_id := page_id p;
          page_properties := ud_properties ud ∪ page_properties p |}
  else p.

Definition demo : remote demo_world :=
  {| mfp_Client w := (Val tt, w);
     mfp_get_date _ _ _ w := (dw_day w, w);
     mfp_get_water _ w := (dw_water w, w);
     notion_query _ _ equals w :=
       if dw_query_fails w then (Raise RemoteError, w)
       else (Val (Some (filter (λ p, dated equals p = true) (dw_pages w))), w);
     notion_create pd w :=
       (Val tt,
        {| dw_day := dw_day w; dw_water := dw_water w;
           dw_query_fails := dw_query_fails w;
           dw_pages := dw_pages w ++
             [{| page_id := "new"; page_properties := pd_properties pd |}] |});
     notion_update ud w :=
       (Val tt,
        {| dw_day := dw_day w; dw_water := dw_water w;
           dw_query_fails := dw_query_fails w;
           dw_pages := patch ud <$> dw_pages w |});
     clock_today _ := {| year := 2024; month := 5; day := 17 |} |}.

(** The properties the demo store holds for a page identifier. *)
Definition demo_stored (w : demo_world) (pid : string)
  : option (gmap string property) :=
  page_properties <$> head (filter (λ p, String.eqb (page_id p) pid = true) (dw_pages w)).

Definition a_day (calories : value) (burnt : list value) : Day :=
  {| totals := {[ "calories" := calories ]};
     exercises :=
       [ {| entries := (λ v, {| nutrition_information := {[ "calories burned" := v ]} |}) <$> burnt |} ] |}.

Definition may17 : date := {| year := 2024; month := 5; day := 17 |}.

Definition a_page (pid : string) (props : gmap string property) : page :=
  {| page_id := pid; page_properties := <[NOTION_DATE_PROP := PDate (VStr "2024-05-17")]> props |}.

Definition a_world (d : res (option Day)) (water : res value) (fails : bool)
    (pages : list page) : demo_world :=
  {| dw_day := d; dw_water := water; dw_query_fails := fails; dw_pages := pages |}.

(** A day with integer totals, its world with an empty store, and the
    snapshot read from it. *)
Definition day0 : Day := a_day (VInt 2100) [VInt 300; VInt 150].

Definition world0 : demo_world := a_world (Val (Some day0)) (Val (VInt 500)) false [].

Definition snap0 : gmap string value :=
  <["water_ml" := VInt 500]>
  (<["fats" := VInt 0]>
  (<["carbs" := VInt 0]>
  (<["protein" := VInt 0]>
  (<["net_calories" := VInt 1650]>
  (<["calories_out_exercise" := VInt 450]>
  (<["calories_in" := VInt 2100]>
  (<["date" := VStr "2024-05-17"]> ∅))))))).

Definition reads0 : list event := [MfpGetDate 2024 5 17; MfpGetWater may17].

(** A day with 1.75 calories eaten and 0.375 burned, and its snapshot. *)
Definition day1 : Day := a_day (VFloat (7 # 4)) [VFloat (3 # 8)].

Definition world1 : demo_world := a_world (Val (Some day1)) (Val VNone) false [].

Definition snap1 : gmap string value :=
  <["water_ml" := VInt 0]>
  (<["fats" := VInt 0]>
  (<["carbs" := VInt 0]>
  (<["protein" := VInt 0]>
  (<["net_calories" := VInt 1]>
  (<["calories_out_exercise" := VInt 0]>
  (<["calories_in" := VInt 2]>
  (<["date" := VStr "2024-05-17"]> ∅))))))).

(** A day with more calories burned than eaten, and its snapshot. *)
Definition day2 : Day := a_day (VInt 100) [VInt 300].

Definition world2 : demo_world := a_world (Val (Some day2)) (Val (VFloat (501 # 2))) false [].

Definition snap2 : gmap string value :=
  <["water_ml" := VFloat (501 # 2)]>
  (<["fats" := VInt 0]>
  (<["carbs" := VInt 0]>
  (<["protein" := VInt 0]>
  (<["net_calories" := VInt (-200)]>
  (<["calories_out_exercise" := VInt 300]>
  (<["calories_in" := VInt 100]>
  (<["date" := VStr "2024-05-17"]> ∅))))))).

(** The stored number and the snapshot's number of a field differ. *)
Definition differs (props : gmap string property) (new_data : gmap string value)
    (f : string * string) : Prop :=
  ¬ (stored_number props f.1 == new_number new_data f.2)%Q.

Definition differsb (props : gmap string property) (new_data : gmap string value)
    (f : string * string) : bool :=
  negb (Qeq_bool (stored_number props f.1) (new_number new_data f.2)).

(** Stored pages for [snap0]: one that agrees with it on the six core
    fields and has no water property, one that also stores its water, and
    one that stores another amount of protein. *)
Definition core0 : gmap string property :=
  <[NOTION_FATS_PROP := PNumber (VInt 0)]>
  (<[NOTION_CARBS_PROP := PNumber (VFloat (0 # 1))]>
  (<[NOTION_PROTEIN_PROP := PNumber VNone]>
  (<[NOTION_NET_CALS_PROP := PNumber (VInt 1650)]>
  (<[NOTION_CALS_OUT_PROP := PNumber (VFloat (900 # 2))]>
  (<[NOTION_CALS_IN_PROP := PNumber (VInt 2100)]> ∅))))).

Definition page0 : page := a_page "p0" core0.

Definition page0_water : page :=
  a_page "p0" (<[NOTION_WATER_PROP := PNumber (VInt 500)]> core0).

Definition page0_protein : page :=
  a_page "p0" (<[NOTION_PROTEIN_PROP := PNumber (VInt 90)]>
              (<[NOTION_WATER_PROP := PNumber (VInt 500)]> core0)).

(** [snap0] without water. *)
Definition snap0_dry : gmap string value := <["water_ml" := VInt 0]> snap0.

(** The properties of the two requests for [snap0]. *)
Definition update0 : gmap string property :=
  <[NOTION_WATER_PROP := PNumber (VInt 500)]>
  (<[NOTION_FATS_PROP := PNumber (VInt 0)]>
  (<[NOTION_CARBS_PROP := PNumber (VInt 0)]>
  (<[NOTION_PROTEIN_PROP := PNumber (VInt 0)]>
  (<[NOTION_NET_CALS_PROP := PNumber (VInt 1650)]>
  (<[NOTION_CALS_OUT_PROP := PNumber (VInt 450)]>
  (<[NOTION_CALS_IN_PROP := PNumber (VInt 2100)]> ∅)))))).

Definition create0 : gmap string property :=
  <[NOTION_DATE_PROP := PDate (VStr "2024-05-17")]> update0.

(** A store that holds two pages for the same date, and a store whose
    query fails. *)
Definition world_dup : demo_world :=
  a_world (Val (Some day0)) (Val (VInt 500)) false [page0_protein; page0_water].

Definition world_down : demo_world :=
  a_world (Val (Some day0)) (Val (VInt 500)) true [page0_water].

(** Provider failures: no data for the date, a raising [get_date], a
    raising [get_water]. *)
Definition world_nodata : demo_world := a_world (Val None) (Val (VInt 500)) false [page0].

Definition world_noday : demo_world :=
  a_world (Raise RemoteError) (Val (VInt 500)) false [page0].

Definition world_nowater : demo_world :=
  a_world (Val (Some day0)) (Raise RemoteError) false [page0].

Definition query0 : event := NotionQuery "db" NOTION_DATE_PROP "2024-05-17".

(** ** Vocabulary of the further properties *)

(** The exercise entries of a day, group after group, and the sum of their
    calories burned where these are integers. *)
Definition all_entries (d : Day) : list Entry := concat (map entries (exercises d)).

Definition int_value (v : value) : option Z :=
  match v with
  | VInt z => Some z
  | _ => None
  end.

Definition is_int (v : value) : bool :=
  match v with
  | VInt _ => true
  | _ => false
  end.

Definition total_burned (d : Day) : Z :=
  fold_left (λ acc e, acc + default 0 (int_value (burned e))) (all_entries d) 0.

(** The totals the reader rounds: snapshot key and provider key. *)
Definition rounded_totals : list (string * string) :=
  [ ("calories_in", "calories"); ("protein", "protein");
    ("carbs", "carbohydrates"); ("fats", "fat") ].

(** The numbers of writes and of queries in a trace. *)
Definition writes (t : list event) : nat := length (List.filter is_write t).

Definition queries (t : list event) : nat :=
  length (List.filter (λ ev, is_store_event ev && negb (is_write ev)) t).

(** A day with a null calories total, one with a null protein total and one
    with an exercise entry whose calories are null. *)
Definition day_null_calories : Day :=
  {| totals := {[ "calories" := VNone ]}; exercises := [] |}.

Definition day_null_protein : Day :=
  {| totals := <["protein" := VNone]> {[ "calories" := VInt 1800 ]}; exercises := [] |}.

Definition day_null_burned : Day := a_day (VInt 1800) [VInt 200; VNone].

Definition snap_null_protein : gmap string value :=
  <["water_ml" := VInt 500]>
  (<["fats" := VInt 0]>
  (<["carbs" := VInt 0]>
  (<["protein" := VInt 0]>
  (<["net_calories" := VInt 1800]>
  (<["calories_out_exercise" := VInt 0]>
  (<["calories_in" := VInt 1800]>
  (<["date" := VStr "2024-05-17"]> ∅))))))).

(** The demo store with a provider client that cannot be created, and with
    writes that fail. *)
Definition demo_client_down : remote demo_world :=
  {| mfp_Client w := (Raise RemoteError, w);
     mfp_get_date := mfp_get_date demo;
     mfp_get_water := mfp_get_water demo;
     notion_query := notion_query demo;
     notion_create := notion_create demo;
     notion_update := notion_update demo;
     clock_today := clock_today demo |}.

Definition demo_write_down : remote demo_world :=
  {| mfp_Client := mfp_Client demo;
     mfp_get_date := mfp_get_date demo;
     mfp_get_water := mfp_get_water demo;
     notion_query := notion_query demo;
     notion_create _ w := (Raise RemoteError, w);
     notion_update _ w := (Raise RemoteError, w);
     clock_today := clock_today demo |}.

Definition cfg0 : config :=
  {| NOTION_TOKEN := Some "secret"; NOTION_DATABASE_ID := Some "db" |}.

(** A store with one record for the date that agrees with [snap0], and one
    whose record stores its calories as text. *)
Definition world_same : demo_world :=
  a_world (Val (Some day0)) (Val (VInt 500)) false [page0_water].

Definition page0_text : page :=
  a_page "p0" (<[NOTION_CALS_IN_PROP := POther]> core0).

Definition world_text : demo_world :=
  a_world (Val (Some day0)) (Val (VInt 500)) false [page0_text].

(** A page that agrees with [page0_water] on the numeric properties only,
    and a snapshot that agrees with [snap0] on the numeric keys only. *)
Definition page0_undated : page :=
  {| page_id := "p9";
     page_properties :=
       <["Notes" := POther]> (<[NOTION_WATER_PROP := PNumber (VInt 500)]> core0) |}.

Definition snap0_redated : gmap string value := <["date" := VStr "1999-01-01"]> snap0.

(** [snap0] without its date. *)
Definition snap0_undated : gmap string value := delete "date" snap0.

(** The rational a binary64 number of the kernel denotes, to compare
    [b64] with the kernel's arithmetic. *)
Definition float_value (x : float) : option Q :=
  match Prim2SF x with
  | S754_zero _ => Some 0%Q
  | S754_finite s m e => Some (Qred (unscale (if s then Z.neg m else Z.pos m) e))
  | _ => None
  end.

(** The floats 100.7, 0.2, 0.49999999999999994, 0.1 and 0.4. *)
Definition f100_7 : Q := b64 (1007 # 10).
Definition f0_2 : Q := b64 (2 # 10).
Definition f0_49 : Q := b64 (49999999999999994 # 100000000000000000).
Definition f0_1 : Q := b64 (1 # 10).
Definition f0_4 : Q := b64 (4 # 10).

(** Days whose float arithmetic is not exact. *)
Definition day_100_7 : Day := a_day (VFloat f100_7) [VFloat f0_2].
Definition day_1_0 : Day := a_day (VFloat 1) [VFloat f0_49].
Definition day_0_5 : Day := a_day (VInt 0) [VFloat f0_1; VFloat f0_4].

Definition snapshot_numbers (ci co net : Z) : gmap string value :=
  <["water_ml" := VInt 0]>
  (<["fats" := VInt 0]>
  (<["carbs" := VInt 0]>
  (<["protein" := VInt 0]>
  (<["net_calories" := VInt net]>
  (<["calories_out_exercise" := VInt co]>
  (<["calories_in" := VInt ci]>
  (<["date" := VStr "2024-05-17"]> ∅))))))).

Definition world_100_7 : demo_world := a_world (Val (Some day_100_7)) (Val VNone) false [].

(** * Properties *)

Example round_ties :
  round_half_even (1 # 2) = 0 ∧ round_half_even (3 # 2) = 2 ∧
  round_half_even (5 # 2) = 2 ∧ round_half_even (-1 # 2) = 0 ∧
  round_half_even (-3 # 2) = -2 ∧ round_half_even (7 # 4) = 2 ∧
  round_half_even (-7 # 4) = -2 ∧ round_half_even (3 # 8) = 0.
Proof. repeat split; reflexivity. Qed.

Example strftime_may17 : strftime may17 = "2024-05-17".
Proof. reflexivity. Qed.

Example strftime_early_years :
  strftime {| year := 999; month := 1; day := 2 |} = "999-01-02" ∧
  strftime {| year := 7; month := 12; day := 31 |} = "7-12-31" ∧
  strftime {| year := 9999; month := 10; day := 9 |} = "9999-10-09".
Proof. split_and!; reflexivity. Qed.

Example run_create :
  trace_of
    (main demo {| NOTION_TOKEN := Some "secret"; NOTION_DATABASE_ID := Some "db" |} world1)
  = [ MfpClient; NotionClient "secret"; MfpGetDate 2024 5 17; MfpGetWater may17;
      NotionQuery "db" "Date" "2024-05-17";
      NotionCreate (make_page_data "db"
        (<[NOTION_WATER_PROP := PNumber (VInt 0)]>
        (<[NOTION_FATS_PROP := PNumber (VInt 0)]>
        (<[NOTION_CARBS_PROP := PNumber (VInt 0)]>
        (<[NOTION_PROTEIN_PROP := PNumber (VInt 0)]>
        (<[NOTION_NET_CALS_PROP := PNumber (VInt 1)]>
        (<[NOTION_CALS_OUT_PROP := PNumber (VInt 0)]>
        (<[NOTION_CALS_IN_PROP := PNumber (VInt 2)]>
        (<[NOTION_DATE_PROP := PDate (VStr "2024-05-17")]> ∅))))))))) ].
Proof. vm_compute. reflexivity. Qed.

(** ** Rounding and arithmetic *)

Lemma round_half_even_inject (z : Z) : round_half_even (inject_Z z) = z.
Proof.
  unfold round_half_even, inject_Z. simpl.
  rewrite Z.mod_1_r, Z.div_1_r. reflexivity.
Qed.

Lemma round_half_even_nonneg (q : Q) : 0 ≤ Qnum q → 0 ≤ round_half_even q.
Proof.
  intros Hq. unfold round_half_even. cbv zeta.
  assert (0 ≤ Qnum q / Z.pos (Qden q)) by (apply Z.div_pos; lia).
  destruct (2 * (Qnum q mod Z.pos (Qden q)) ?= Z.pos (Qden q)); [|lia|lia].
  destruct (Z.even _); lia.
Qed.

Lemma round_half_even_zero (q : Q) : Qnum q = 0 → round_half_even q = 0.
Proof.
  intros Hq. unfold round_half_even. rewrite Hq. simpl. reflexivity.
Qed.

(** The rounded value is a nearest integer: it is within one half of the
    rational. *)
Lemma round_half_even_nearest (q : Q) :
  (Z.abs (2 * Qnum q - 2 * round_half_even q * Z.pos (Qden q)) ≤ Z.pos (Qden q)).
Proof.
  unfold round_half_even. cbv zeta.
  pose proof (Z.div_mod (Qnum q) (Z.pos (Qden q)) ltac:(lia)) as Hdm.
  pose proof (Z.mod_pos_bound (Qnum q) (Z.pos (Qden q)) ltac:(lia)) as Hb.
  destruct (Z.compare_spec (2 * (Qnum q mod Z.pos (Qden q))) (Z.pos (Qden q)));
    [destruct (Z.even _)| |]; nia.
Qed.

(** Rounding does not depend on the fraction that represents the number. *)
Lemma round_half_even_Qeq (p q : Q) :
  (p == q)%Q → round_half_even p = round_half_even q.
Proof.
  unfold Qeq, round_half_even. cbv zeta. intros Heq.
  set (a := Qnum p) in *. set (b := Z.pos (Qden p)) in *.
  set (c := Qnum q) in *. set (d := Z.pos (Qden q)) in *.
  assert (Hb : 0 < b) by (subst b; lia).
  assert (Hd : 0 < d) by (subst d; lia).
  assert (Hf : a / b = c / d).
  { rewrite <- (Z.div_mul_cancel_r a b d) by lia.
    rewrite <- (Z.div_mul_cancel_r c d b) by lia.
    by rewrite Heq, (Z.mul_comm b d). }
  pose proof (Z.div_mod a b ltac:(lia)) as Hab.
  pose proof (Z.div_mod c d ltac:(lia)) as Hcd.
  rewrite <- Hf in Hcd |- *.
  assert (Hm : (a mod b) * d = (c mod d) * b) by nia.
  destruct (Z.compare_spec (2 * (a mod b)) b) as [H1|H1|H1];
    destruct (Z.compare_spec (2 * (c mod d)) d) as [H2|H2|H2];
    try reflexivity; exfalso; nia.
Qed.

(** ** Binary64 rounding *)

Lemma Qred_nonneg (q : Q) : 0 ≤ Qnum q → 0 ≤ Qnum (Qred q).
Proof.
  intros Hq. pose proof (Qred_correct q) as Heq. unfold Qeq in Heq.
  destruct (Z.lt_ge_cases (Qnum (Qred q)) 0) as [Hneg|]; [|done]. nia.
Qed.

Lemma scale_nonneg (q : Q) (c : Z) : 0 ≤ Qnum q → 0 ≤ Qnum (scale q c).
Proof.
  intros Hq. unfold scale. destruct (0 <=? c); simpl; [done|].
  apply Z.mul_nonneg_nonneg; [done|]. apply Z.pow_nonneg. lia.
Qed.

Lemma unscale_nonneg (m c : Z) : 0 ≤ m → 0 ≤ Qnum (unscale m c).
Proof.
  intros Hm. unfold unscale. destruct (0 <=? c); simpl; [|done].
  apply Z.mul_nonneg_nonneg; [done|]. apply Z.pow_nonneg. lia.
Qed.

(** Rounding to binary64 keeps the sign. *)
Lemma b64_nonneg (q : Q) : 0 ≤ Qnum q → 0 ≤ Qnum (b64 q).
Proof.
  intros Hq. unfold b64. destruct (Qnum q =? 0); [done|]. cbv zeta.
  by apply Qred_nonneg, unscale_nonneg, round_half_even_nonneg, scale_nonneg.
Qed.

Lemma Qplus_nonneg (p q : Q) : 0 ≤ Qnum p → 0 ≤ Qnum q → 0 ≤ Qnum (p + q).
Proof. intros Hp Hq. simpl. nia. Qed.

(** The rounded number is a multiple [m * 2^c] of the spacing at the
    exponent of the rational, and [m] is within one half of the rational
    counted in that spacing. *)
Lemma b64_half_spacing (q : Q) :
  Qnum q ≠ 0 →
  let c := Z.max (exponent q) (-1022) - 52 in
  let s := scale q c in
  ∃ m, (b64 q == unscale m c)%Q ∧ -1074 ≤ c ∧
       Z.abs (2 * Qnum s - 2 * m * Z.pos (Qden s)) ≤ Z.pos (Qden s).
Proof.
  intros Hq c s. exists (round_half_even s). split_and!.
  - unfold b64. destruct (Z.eqb_spec (Qnum q) 0); [done|]. apply Qred_correct.
  - subst c. lia.
  - apply round_half_even_nearest.
Qed.

(** [b64] against the binary64 arithmetic of the kernel: literals, a sum
    and differences that are not exact, a tie, numbers below [2^-1022] and
    above [2^53]. *)
Example b64_is_binary64 :
  float_value 0x1.92ccccccccccdp+6 = Some f100_7 ∧
  float_value 0x1.999999999999ap-3 = Some f0_2 ∧
  float_value 0x1.fffffffffffffp-2 = Some f0_49 ∧
  float_value (0x1.92ccccccccccdp+6 - 0x1.999999999999ap-3) = Some (b64 (f100_7 - f0_2)) ∧
  float_value (1 - 0x1.fffffffffffffp-2) = Some (b64 (1 - f0_49)) ∧
  float_value (0x1.999999999999ap-4 + 0x1.999999999999ap-2) = Some (b64 (f0_1 + f0_4)) ∧
  float_value (0x1.0f0cf064dd592p+73 - 0x1.3333333333333p-2)
    = Some (b64 (10000000000000000000000 - b64 (3 # 10))) ∧
  float_value (0x0.012688b70e62bp-1022 + 0x0.0000000000001p-1022)
    = Some (b64 (b64 ((1 # 10) ^ 310) + unscale 1 (-1074))) ∧
  float_value (0x1p+53 + 1) = Some (b64 (inject_Z (2 ^ 53 + 1))).
Proof. split_and!; vm_compute; reflexivity. Qed.

Example b64_rounds_where_exact_arithmetic_does_not :
  f100_7 = (7086132538690765 # 70368744177664)%Q ∧
  f0_2 = (3602879701896397 # 18014398509481984)%Q ∧
  round_half_even (f100_7 - f0_2) = 101 ∧
  b64 (f100_7 - f0_2) = (201 # 2)%Q ∧
  round_half_even (b64 (f100_7 - f0_2)) = 100 ∧
  round_half_even (1 - f0_49) = 1 ∧
  round_half_even (b64 (1 - f0_49)) = 0 ∧
  round_half_even (f0_1 + f0_4) = 1 ∧
  round_half_even (b64 (f0_1 + f0_4)) = 0.
Proof. split_and!; vm_compute; reflexivity. Qed.

(** ** The reader, call by call *)

Section Reader.
Context {W : Type} (R : remote W).

Lemma get_mfp_data_for_date_eq (td : date) (w : W) :
  get_mfp_data_for_date R td w =
  match mfp_get_date R (year td) (month td) (day td) w with
  | (Val (Some d), w1) =>
      match mfp_get_water R td w1 with
      | (Val water, w2) =>
          (Val (match snapshot_of td d water with
                | Val snap => Some snap
                | Raise _ => None
                end),
           w2, [MfpGetDate (year td) (month td) (day td); MfpGetWater td])
      | (Raise _, w2) =>
          (Val None, w2, [MfpGetDate (year td) (month td) (day td); MfpGetWater td])
      end
  | (_, w1) => (Val None, w1, [MfpGetDate (year td) (month td) (day td)])
  end.
Proof.
  unfold get_mfp_data_for_date, try_except, call, lift, snapshot_of.
  unfold mbind, mret, M_bind, M_ret, res_bind, res_ret.
  destruct (mfp_get_date R _ _ _ w) as [[[d|]|e] w1]; try reflexivity.
  destruct (mfp_get_water R td w1) as [[water|e] w2]; try reflexivity.
  destruct (exercise_calories d) as [out|]; [|reflexivity].
  destruct (py_sub _ out) as [net|]; [|reflexivity].
  repeat (match goal with
          | |- context [py_round ?x] => destruct (py_round x); [|reflexivity]
          end).
  reflexivity.
Qed.
End Reader.

(** ** The snapshot *)

Lemma snapshot_of_fields (td : date) (d : Day) (water : value)
    (snap : gmap string value) :
  snapshot_of td d water = Val snap →
  ∃ out net, snapshot_fields td d water snap out net.
Proof.
  unfold snapshot_of, snapshot_fields.
  unfold mbind, mret, res_bind, res_ret.
  destruct (exercise_calories d) as [out|]; [|discriminate].
  destruct (py_sub _ out) as [net|] eqn:Hnet; [|discriminate].
  repeat (match goal with
          | |- context [match py_round ?x with _ => _ end] =>
              let r := fresh "r" in let E := fresh "E" in
              destruct (py_round x) as [r|] eqn:E; [|discriminate]
          end).
  intros H. injection H as <-. exists out, net.
  repeat split; try done;
    repeat (rewrite lookup_insert_ne by done); rewrite lookup_insert_eq;
    simpl; congruence.
Qed.

Lemma get_mfp_data_for_date_Some {W} (R : remote W) (td : date) (w w' : W)
    (t : list event) (snap : gmap string value) :
  get_mfp_data_for_date R td w = (Val (Some snap), w', t) →
  ∃ d w1 water,
    mfp_get_date R (year td) (month td) (day td) w = (Val (Some d), w1) ∧
    mfp_get_water R td w1 = (Val water, w') ∧
    snapshot_of td d water = Val snap ∧
    t = [MfpGetDate (year td) (month td) (day td); MfpGetWater td].
Proof.
  rewrite get_mfp_data_for_date_eq.
  destruct (mfp_get_date R _ _ _ w) as [[[d|]|e] w1]; try (intros ?; discriminate).
  destruct (mfp_get_water R td w1) as [[water|e] w2] eqn:Hw;
    try (intros ?; discriminate).
  destruct (snapshot_of td d water) as [s|] eqn:Hs; intros [= <- <- <-].
  by exists d, w1, water.
Qed.

(** The reader never raises: every failure inside it comes back as [None]. *)
Lemma get_mfp_data_for_date_returns {W} (R : remote W) (td : date) (w : W) :
  ∃ r, outcome_of (get_mfp_data_for_date R td w) = Val r.
Proof.
  rewrite get_mfp_data_for_date_eq.
  destruct (mfp_get_date R _ _ _ w) as [[[d|]|e] w1]; try (by eexists).
  destruct (mfp_get_water R td w1) as [[water|e] w2]; by eexists.
Qed.

Lemma py_round_or_zero (v : value) (q : Q) :
  number v = Some q → py_round (py_or v (VInt 0)) = Val (VInt (round_half_even q)).
Proof.
  destruct v as [|z|p|s]; simpl; intros [= <-]; unfold py_or; simpl.
  - rewrite round_half_even_inject.
    destruct (Z.eqb_spec z 0) as [->|]; reflexivity.
  - destruct (Z.eqb_spec (Qnum p) 0) as [Hz|]; simpl; [|reflexivity].
    by rewrite round_half_even_zero.
Qed.

Lemma py_sub_number (a b r : value) :
  py_sub a b = Val r →
  ∃ qr, number r = Some qr ∧
    ((∃ x y, a = VInt x ∧ b = VInt y ∧ r = VInt (x - y)) ∨
     (∃ fa fb, as_double a = Some fa ∧ as_double b = Some fb ∧
               is_float a || is_float b = true ∧ qr = b64 (fa - fb))).
Proof.
  destruct a as [|x|x|x], b as [|y|y|y]; simpl; intros [= <-];
    eexists; (split; [reflexivity|]);
    solve [left; by eexists _, _ | right; by eexists _, _].
Qed.

(** C1, as the code has it: the net calories of a snapshot are the
    provider's calories minus the sum of the calories burned, subtracted
    first as Python subtracts (exactly on integers, to the nearest binary64
    number when a float takes part) and rounded to an integer once; when
    both are integers this is the difference of the snapshot's two rounded
    fields. *)
Theorem net_calories_rounds_the_difference {W} (R : remote W) (td : date)
    (w w' : W) (t : list event) (snap : gmap string value) :
  get_mfp_data_for_date R td w = (Val (Some snap), w', t) →
  ∃ d w1 out net qn,
    mfp_get_date R (year td) (month td) (day td) w = (Val (Some d), w1) ∧
    exercise_calories d = Val out ∧
    py_sub (dict_get (totals d) "calories" (VInt 0)) out = Val net ∧
    number net = Some qn ∧
    snap !! "net_calories" = Some (VInt (round_half_even qn)) ∧
    (∀ a b, dict_get (totals d) "calories" (VInt 0) = VInt a → out = VInt b →
       snap !! "calories_in" = Some (VInt a) ∧
       snap !! "calories_out_exercise" = Some (VInt b) ∧
       snap !! "net_calories" = Some (VInt (a - b))) ∧
    (is_float (dict_get (totals d) "calories" (VInt 0)) || is_float out = true →
     ∃ fi fo,
       as_double (dict_get (totals d) "calories" (VInt 0)) = Some fi ∧
       as_double out = Some fo ∧
       qn = b64 (fi - fo)).
Proof.
  intros Hget.
  apply get_mfp_data_for_date_Some in Hget as (d & w1 & water & Hd & _ & Hs & _).
  apply snapshot_of_fields in Hs as (out & net & Hout & Hsub & _ & Hin & Hex & Hnet & _).
  apply py_sub_number in Hsub as Hnum.
  destruct Hnum as (qn & Hqn & Hcases).
  rewrite (py_round_or_zero _ _ Hqn) in Hnet.
  assert (Hnet' : snap !! "net_calories" = Some (VInt (round_half_even qn))).
  { destruct (snap !! "net_calories"); simpl in Hnet; congruence. }
  exists d, w1, out, net, qn. split_and!; try done.
  - intros a b Ha ->. rewrite Ha in *.
    rewrite (py_round_or_zero (VInt a) (inject_Z a) eq_refl), round_half_even_inject in Hin.
    rewrite (py_round_or_zero (VInt b) (inject_Z b) eq_refl), round_half_even_inject in Hex.
    simpl in Hsub. injection Hsub as <-. injection Hqn as <-.
    rewrite round_half_even_inject in Hnet'.
    split_and!; [|  |done].
    + destruct (snap !! "calories_in"); simpl in Hin; congruence.
    + destruct (snap !! "calories_out_exercise"); simpl in Hex; congruence.
  - intros Hfloat.
    destruct Hcases as [(x & y & Hx & -> & _)|(fa & fb & Hfa & Hfb & _ & ->)].
    + rewrite Hx in Hfloat. discriminate.
    + by exists fa, fb.
Qed.

Lemma net_calories_rounds_the_difference_witness :
  ∃ d w1 out net qn,
    mfp_get_date demo (year may17) (month may17) (day may17) world_100_7 = (Val (Some d), w1) ∧
    exercise_calories d = Val out ∧
    py_sub (dict_get (totals d) "calories" (VInt 0)) out = Val net ∧
    number net = Some qn ∧
    (snapshot_numbers 101 0 100) !! "net_calories" = Some (VInt (round_half_even qn)) ∧
    (∀ a b, dict_get (totals d) "calories" (VInt 0) = VInt a → out = VInt b →
       (snapshot_numbers 101 0 100) !! "calories_in" = Some (VInt a) ∧
       (snapshot_numbers 101 0 100) !! "calories_out_exercise" = Some (VInt b) ∧
       (snapshot_numbers 101 0 100) !! "net_calories" = Some (VInt (a - b))) ∧
    (is_float (dict_get (totals d) "calories" (VInt 0)) || is_float out = true →
     ∃ fi fo,
       as_double (dict_get (totals d) "calories" (VInt 0)) = Some fi ∧
       as_double out = Some fo ∧
       qn = b64 (fi - fo)).
Proof.
  apply (net_calories_rounds_the_difference demo may17 world_100_7 world_100_7 reads0 (snapshot_numbers 101 0 100)).
  reflexivity.
Defined.

(** The reader on floats whose difference and sum are not exact: 100.7
    eaten and 0.2 burned give net 100, 1.0 eaten and 0.49999999999999994
    burned give net 0, and 0.1 and 0.4 burned give 0 calories out. *)
Example reader_rounds_as_binary64 :
  outcome_of (get_mfp_data_for_date demo may17 world_100_7)
    = Val (Some (snapshot_numbers 101 0 100)) ∧
  outcome_of (get_mfp_data_for_date demo may17
                (a_world (Val (Some day_1_0)) (Val VNone) false []))
    = Val (Some (snapshot_numbers 1 0 0)) ∧
  outcome_of (get_mfp_data_for_date demo may17
                (a_world (Val (Some day_0_5)) (Val VNone) false []))
    = Val (Some (snapshot_numbers 0 0 0)).
Proof. split_and!; reflexivity. Qed.

(** C1, as the spec has it, fails: with 1.75 calories eaten and 0.375
    burned the snapshot's three fields are 2, 0 and 1, and 1 is not 2 - 0. *)
Lemma net_calories_counterexample :
  outcome_of (get_mfp_data_for_date demo may17 world1) = Val (Some snap1) ∧
  py_round (dict_get (totals day1) "calories" (VInt 0)) = Val (VInt 2) ∧
  (exercise_calories day1 ≫= py_round) = Val (VInt 0) ∧
  snap1 !! "calories_in" = Some (VInt 2) ∧
  snap1 !! "calories_out_exercise" = Some (VInt 0) ∧
  snap1 !! "net_calories" = Some (VInt 1) ∧
  1 ≠ 2 - 0.
Proof.
  split_and!; try reflexivity. lia.
Qed.

(** ** Sign and type of the snapshot's fields *)

Lemma py_add_nonneg (a b r : value) :
  nonneg a → nonneg b → py_add a b = Val r → nonneg r.
Proof.
  unfold nonneg.
  destruct a as [|x|x|x], b as [|y|y|y]; simpl; intros Ha Hb [= <-] q [= <-];
    specialize (Ha _ eq_refl); specialize (Hb _ eq_refl);
    try (simpl in *; lia);
    apply b64_nonneg, Qplus_nonneg; try done; by apply b64_nonneg.
Qed.

Lemma add_entries_nonneg (es : list Entry) (acc r : value) :
  nonneg acc → Forall (λ e, nonneg (burned e)) es →
  add_entries acc es = Val r → nonneg r.
Proof.
  revert acc. induction es as [|e es IH]; simpl; intros acc Hacc Hes.
  - by intros [= <-].
  - inversion Hes as [|? ? He Hes']; subst.
    unfold mbind, res_bind.
    destruct (py_add acc _) as [acc'|] eqn:Hadd; [|discriminate].
    apply IH; [|done]. eapply py_add_nonneg; [exact Hacc|exact He|exact Hadd].
Qed.

Lemma add_groups_nonneg (gs : list Exercise) (acc r : value) :
  nonneg acc → Forall (λ g, Forall (λ e, nonneg (burned e)) (entries g)) gs →
  add_groups acc gs = Val r → nonneg r.
Proof.
  revert acc. induction gs as [|g gs IH]; simpl; intros acc Hacc Hgs.
  - by intros [= <-].
  - inversion Hgs as [|? ? Hg Hgs']; subst.
    unfold mbind, res_bind.
    destruct (add_entries acc _) as [acc'|] eqn:Hadd; [|discriminate].
    apply IH; [|done]. eapply add_entries_nonneg; [exact Hacc|exact Hg|exact Hadd].
Qed.

Lemma exercise_calories_nonneg (d : Day) (out : value) :
  Forall (λ g, Forall (λ e, nonneg (burned e)) (entries g)) (exercises d) →
  exercise_calories d = Val out → nonneg out.
Proof.
  unfold exercise_calories. intros Hd.
  destruct (exercises d) as [|g gs] eqn:Hgs.
  - intros [= <-] q [= <-]. simpl. lia.
  - apply add_groups_nonneg; [|done]. intros q [= <-]. simpl. lia.
Qed.

Lemma py_round_or_Val (v r : value) :
  py_round (py_or v (VInt 0)) = Val r →
  ∃ z, r = VInt z ∧ (nonneg v → 0 ≤ z) ∧ (v = VInt 0 → z = 0).
Proof.
  unfold py_or, nonneg. destruct v as [|x|x|x]; simpl.
  - intros [= <-]. exists 0. repeat split; lia.
  - destruct (Z.eqb_spec x 0) as [->|Hx]; simpl; intros [= <-]; eexists;
      (split; [reflexivity|]); split; try done.
    + intros H. apply (H (inject_Z x)). reflexivity.
    + by intros [= ->].
  - destruct (Z.eqb_spec (Qnum x) 0) as [Hx|Hx]; simpl; intros [= <-]; eexists;
      (split; [reflexivity|]); split; try done.
    intros H. apply round_half_even_nonneg. by apply H.
  - destruct (String.eqb x ""); simpl; intros [= <-]. exists 0. repeat split; lia.
Qed.

Lemma snapshot_integer_field (snap : gmap string value) (key : string) (v : value) :
  Val <$> snap !! key = Some (py_round (py_or v (VInt 0))) →
  ∃ z, snap !! key = Some (VInt z) ∧ (nonneg v → 0 ≤ z) ∧ (v = VInt 0 → z = 0).
Proof.
  destruct (snap !! key) as [r|]; simpl; intros [= H].
  symmetry in H. apply py_round_or_Val in H as (z & -> & ?). eauto.
Qed.

Lemma dict_get_absent {A} (d : gmap string A) (k : string) (default : A) :
  d !! k = None → dict_get d k default = default.
Proof. unfold dict_get. by intros ->. Qed.

(** C3, as the code has it: in every snapshot the six rounded fields are
    integers; calories eaten, protein, carbohydrates and fat are not
    negative when the provider's totals are not, the calories burned are
    not negative when no exercise entry is, a total that is absent and an
    empty exercise list give 0; the net calories are an integer of either
    sign, and the water is the provider's value as it is, 0 for [None]. *)
Theorem snapshot_fields_are_integers {W} (R : remote W) (td : date)
    (w w' : W) (t : list event) (snap : gmap string value) :
  get_mfp_data_for_date R td w = (Val (Some snap), w', t) →
  ∃ d w1 water zi zo zn zp zc zf,
    mfp_get_date R (year td) (month td) (day td) w = (Val (Some d), w1) ∧
    mfp_get_water R td w1 = (Val water, w') ∧
    snap !! "calories_in" = Some (VInt zi) ∧
    snap !! "calories_out_exercise" = Some (VInt zo) ∧
    snap !! "net_calories" = Some (VInt zn) ∧
    snap !! "protein" = Some (VInt zp) ∧
    snap !! "carbs" = Some (VInt zc) ∧
    snap !! "fats" = Some (VInt zf) ∧
    snap !! "water_ml" = Some (match water with VNone => VInt 0 | _ => water end) ∧
    (nonneg (dict_get (totals d) "calories" (VInt 0)) → 0 ≤ zi) ∧
    (nonneg (dict_get (totals d) "protein" (VInt 0)) → 0 ≤ zp) ∧
    (nonneg (dict_get (totals d) "carbohydrates" (VInt 0)) → 0 ≤ zc) ∧
    (nonneg (dict_get (totals d) "fat" (VInt 0)) → 0 ≤ zf) ∧
    (Forall (λ g, Forall (λ e, nonneg (burned e)) (entries g)) (exercises d) → 0 ≤ zo) ∧
    (totals d !! "calories" = None → zi = 0) ∧
    (totals d !! "protein" = None → zp = 0) ∧
    (totals d !! "carbohydrates" = None → zc = 0) ∧
    (totals d !! "fat" = None → zf = 0) ∧
    (exercises d = [] → zo = 0).
Proof.
  intros Hget.
  apply get_mfp_data_for_date_Some in Hget as (d & w1 & water & Hd & Hw & Hs & _).
  apply snapshot_of_fields in Hs
    as (out & net & Hout & Hsub & _ & Hin & Hex & Hnet & Hp & Hc & Hf & Hwater & _).
  apply snapshot_integer_field in Hin as (zi & Hin & Hi0 & Hi1).
  apply snapshot_integer_field in Hex as (zo & Hex & Ho0 & Ho1).
  apply snapshot_integer_field in Hnet as (zn & Hnet & _).
  apply snapshot_integer_field in Hp as (zp & Hp & Hp0 & Hp1).
  apply snapshot_integer_field in Hc as (zc & Hc & Hc0 & Hc1).
  apply snapshot_integer_field in Hf as (zf & Hf & Hf0 & Hf1).
  exists d, w1, water, zi, zo, zn, zp, zc, zf.
  split_and!; try done.
  - intros Hall. apply Ho0. by eapply exercise_calories_nonneg.
  - intros Hnone. apply Hi1. by apply dict_get_absent.
  - intros Hnone. apply Hp1. by apply dict_get_absent.
  - intros Hnone. apply Hc1. by apply dict_get_absent.
  - intros Hnone. apply Hf1. by apply dict_get_absent.
  - intros Hnone. apply Ho1. unfold exercise_calories in Hout.
    rewrite Hnone in Hout. congruence.
Qed.

Lemma snapshot_fields_are_integers_witness :
  ∃ d w1 water zi zo zn zp zc zf,
    mfp_get_date demo (year may17) (month may17) (day may17) world2 = (Val (Some d), w1) ∧
    mfp_get_water demo may17 w1 = (Val water, world2) ∧
    snap2 !! "calories_in" = Some (VInt zi) ∧
    snap2 !! "calories_out_exercise" = Some (VInt zo) ∧
    snap2 !! "net_calories" = Some (VInt zn) ∧
    snap2 !! "protein" = Some (VInt zp) ∧
    snap2 !! "carbs" = Some (VInt zc) ∧
    snap2 !! "fats" = Some (VInt zf) ∧
    snap2 !! "water_ml" = Some (match water with VNone => VInt 0 | _ => water end) ∧
    (nonneg (dict_get (totals d) "calories" (VInt 0)) → 0 ≤ zi) ∧
    (nonneg (dict_get (totals d) "protein" (VInt 0)) → 0 ≤ zp) ∧
    (nonneg (dict_get (totals d) "carbohydrates" (VInt 0)) → 0 ≤ zc) ∧
    (nonneg (dict_get (totals d) "fat" (VInt 0)) → 0 ≤ zf) ∧
    (Forall (λ g, Forall (λ e, nonneg (burned e)) (entries g)) (exercises d) → 0 ≤ zo) ∧
    (totals d !! "calories" = None → zi = 0) ∧
    (totals d !! "protein" = None → zp = 0) ∧
    (totals d !! "carbohydrates" = None → zc = 0) ∧
    (totals d !! "fat" = None → zf = 0) ∧
    (exercises d = [] → zo = 0).
Proof.
  apply (snapshot_fields_are_integers demo may17 world2 world2 reads0 snap2).
  reflexivity.
Defined.

(** C3, as the spec has it, fails: with 100 calories eaten and 300 burned
    the snapshot's net calories are -200; with 250.5 ml of water the
    snapshot's water is 250.5. *)
Lemma snapshot_nonnegative_counterexample :
  outcome_of (get_mfp_data_for_date demo may17 world2) = Val (Some snap2) ∧
  snap2 !! "net_calories" = Some (VInt (-200)) ∧
  -200 < 0 ∧
  snap2 !! "water_ml" = Some (VFloat (501 # 2)) ∧
  ¬ (∃ z, (501 # 2 == inject_Z z)%Q).
Proof.
  split_and!; try reflexivity.
  intros [z Hz]. unfold Qeq in Hz. simpl in Hz. lia.
Qed.

(** ** The update predicate *)

Ltac in_list := apply list_elem_of_In; cbv; tauto.

Lemma differsb_spec props new_data f :
  differsb props new_data f = true ↔ differs props new_data f.
Proof.
  unfold differsb, differs. rewrite negb_true_iff, <- Qeq_bool_iff.
  destruct (Qeq_bool _ _); split; congruence.
Qed.

Lemma py_ne_numbers (a b : value) (x y : Q) :
  number a = Some x → number b = Some y → py_ne a b = negb (Qeq_bool x y).
Proof.
  unfold py_ne, py_eq.
  destruct a, b; simpl; intros [= <-] [= <-]; reflexivity.
Qed.

Lemma number_typed_lookup (props : gmap string property) (name : string) (p : property) :
  number_typed props = true → name ∈ numeric_props → props !! name = Some p →
  ∃ v, p = PNumber v ∧ (v = VNone ∨ is_number v).
Proof.
  unfold number_typed. rewrite forallb_forall. intros Hall Hname Hp.
  apply list_elem_of_In, Hall in Hname. rewrite Hp in Hname.
  destruct p as [v| |]; try discriminate. exists v. split; [done|].
  unfold is_number. destruct v; simpl in *; eauto; discriminate.
Qed.

Lemma numeric_snapshot_lookup (new_data : gmap string value) (key : string) :
  numeric_snapshot new_data = true → key ∈ numeric_keys →
  ∃ v, new_data !! key = Some v ∧ is_number v.
Proof.
  unfold numeric_snapshot. rewrite forallb_forall. intros Hall Hkey.
  apply list_elem_of_In, Hall in Hkey.
  destruct (new_data !! key) as [v|]; [|discriminate]. exists v. split; [done|].
  unfold is_number, is_numberb in *. destruct (number v); eauto; discriminate.
Qed.

Lemma get_notion_number_typed (props : gmap string property) (name : string) :
  number_typed props = true → name ∈ numeric_props →
  ∃ v, get_notion_number props name = Val v ∧
       number v = Some (stored_number props name).
Proof.
  intros Htyped Hname. unfold get_notion_number, stored_number.
  destruct (props !! name) as [p|] eqn:Hp.
  - destruct (number_typed_lookup _ _ _ Htyped Hname Hp) as (v & -> & [->|[q Hq]]); simpl.
    + by exists (VInt 0).
    + exists v. rewrite Hq. by destruct v.
  - by exists (VInt 0).
Qed.

Lemma field_differs_typed (props : gmap string property)
    (new_data : gmap string value) (name key : string) :
  number_typed props = true → numeric_snapshot new_data = true →
  name ∈ numeric_props → key ∈ numeric_keys →
  field_differs props name new_data key = Val (differsb props new_data (name, key)).
Proof.
  intros Htyped Hnum Hname Hkey. unfold field_differs, differsb, new_number, getitem.
  destruct (get_notion_number_typed props name Htyped Hname) as (v & -> & Hv).
  destruct (numeric_snapshot_lookup _ _ Hnum Hkey) as (n & Hn & [q Hq]). simpl. rewrite Hn. simpl.
  unfold mret, res_ret. f_equal. rewrite Hq. simpl. by apply py_ne_numbers.
Qed.

Lemma entry_needs_update_typed (existing_page : page) (new_data : gmap string value) :
  number_typed (page_properties existing_page) = true →
  numeric_snapshot new_data = true →
  entry_needs_update existing_page new_data =
  Val (existsb (differsb (page_properties existing_page) new_data) core_fields
       || match page_properties existing_page !! NOTION_WATER_PROP with
          | Some _ =>
              differsb (page_properties existing_page) new_data
                (NOTION_WATER_PROP, "water_ml")
          | None => 0 <? Qnum (new_number new_data "water_ml")
          end).
Proof.
  intros Htyped Hnum. unfold entry_needs_update.
  rewrite !(field_differs_typed _ _ _ _ Htyped Hnum)
    by in_list.
  destruct (numeric_snapshot_lookup _ "water_ml" Hnum) as (v & Hv & [q Hq]);
    [in_list|].
  unfold py_gt_zero, dict_get, new_number. rewrite Hv, Hq. simpl.
  set (props := page_properties existing_page).
  destruct (props !! NOTION_WATER_PROP) eqn:Hwater.
  - repeat (destruct (differsb _ _ _); simpl; try reflexivity).
  - repeat (destruct (differsb _ _ _); simpl; try reflexivity);
      destruct (0 <? Qnum q); reflexivity.
Qed.

Lemma existsb_differs props new_data (fs : list (string * string)) :
  existsb (differsb props new_data) fs = true ↔ Exists (differs props new_data) fs.
Proof.
  induction fs as [|f fs IH]; simpl.
  - rewrite Exists_nil. split; [discriminate|tauto].
  - rewrite Exists_cons, orb_true_iff, IH, differsb_spec. tauto.
Qed.

Lemma positive_number (q : Q) : (0 <? Qnum q) = true ↔ (0 < q)%Q.
Proof. unfold Qlt. simpl. rewrite Z.ltb_lt. lia. Qed.

(** The snapshots of the reader hold the seven numbers whenever the
    provider's water is a number or [None]. *)
Lemma snapshot_of_numeric (td : date) (d : Day) (water : value)
    (snap : gmap string value) :
  snapshot_of td d water = Val snap →
  water = VNone ∨ is_number water →
  numeric_snapshot snap = true.
Proof.
  intros Hs Hwater.
  apply snapshot_of_fields in Hs
    as (out & net & _ & _ & _ & Hin & Hex & Hnet & Hp & Hc & Hf & Hw & _).
  apply snapshot_integer_field in Hin as (zi & Hin & _).
  apply snapshot_integer_field in Hex as (zo & Hex & _).
  apply snapshot_integer_field in Hnet as (zn & Hnet & _).
  apply snapshot_integer_field in Hp as (zp & Hp & _).
  apply snapshot_integer_field in Hc as (zc & Hc & _).
  apply snapshot_integer_field in Hf as (zf & Hf & _).
  unfold numeric_snapshot. simpl. rewrite Hin, Hex, Hnet, Hp, Hc, Hf, Hw. simpl.
  destruct Hwater as [->|[q Hq]]; [done|].
  unfold is_numberb. by destruct water.
Qed.

(** C2: on a stored page whose numeric properties are number properties
    and a snapshot with its seven numbers, [entry_needs_update] returns,
    and returns true exactly when one of the six core fields differs (a
    missing or null stored number counting as 0), or the water property is
    stored and differs, or it is not stored and the snapshot's water is
    positive; with no water property stored and no water in the snapshot
    the water adds nothing. *)
Theorem entry_needs_update_iff (existing_page : page) (new_data : gmap string value) :
  number_typed (page_properties existing_page) = true →
  numeric_snapshot new_data = true →
  ∃ b, entry_needs_update existing_page new_data = Val b ∧
    (b = true ↔
       Exists (differs (page_properties existing_page) new_data) core_fields
       ∨ (is_Some (page_properties existing_page !! NOTION_WATER_PROP) ∧
          differs (page_properties existing_page) new_data (NOTION_WATER_PROP, "water_ml"))
       ∨ (page_properties existing_page !! NOTION_WATER_PROP = None ∧
          (0 < new_number new_data "water_ml")%Q)) ∧
    (page_properties existing_page !! NOTION_WATER_PROP = None →
     (new_number new_data "water_ml" == 0)%Q →
     (b = true ↔ Exists (differs (page_properties existing_page) new_data) core_fields)).
Proof.
  intros Htyped Hnum. rewrite (entry_needs_update_typed _ _ Htyped Hnum).
  eexists. split; [reflexivity|].
  rewrite orb_true_iff, existsb_differs.
  destruct (page_properties existing_page !! NOTION_WATER_PROP) as [p|] eqn:Hwater.
  - rewrite differsb_spec. split; [|intros [=]].
    split; [intros [?|?]; eauto|].
    intros [?|[[_ ?]|[[=] _]]]; eauto.
  - rewrite positive_number. split.
    + split; [intros [?|?]; eauto|].
      intros [?|[[[? [=]] _]|[_ ?]]]; eauto.
    + intros _ Hzero. rewrite Hzero. split; [|eauto].
      intros [?|Hlt]; [done|]. by apply Qlt_irrefl in Hlt.
Qed.

Lemma entry_needs_update_iff_witness :
  ∃ b, entry_needs_update page0 snap0 = Val b ∧
    (b = true ↔
       Exists (differs (page_properties page0) snap0) core_fields
       ∨ (is_Some (page_properties page0 !! NOTION_WATER_PROP) ∧
          differs (page_properties page0) snap0 (NOTION_WATER_PROP, "water_ml"))
       ∨ (page_properties page0 !! NOTION_WATER_PROP = None ∧
          (0 < new_number snap0 "water_ml")%Q)) ∧
    (page_properties page0 !! NOTION_WATER_PROP = None →
     (new_number snap0 "water_ml" == 0)%Q →
     (b = true ↔ Exists (differs (page_properties page0) snap0) core_fields)).
Proof.
  apply (entry_needs_update_iff page0 snap0); reflexivity.
Defined.

(** The cases of the spec's test list: a matching pair, a perturbed
    protein, and the two sides of the water rule. *)
Example needs_update_cases :
  entry_needs_update page0_water snap0 = Val false ∧
  entry_needs_update page0_protein snap0 = Val true ∧
  entry_needs_update page0 snap0 = Val true ∧
  entry_needs_update page0 snap0_dry = Val false ∧
  entry_needs_update page0_water snap0_dry = Val true.
Proof. split_and!; reflexivity. Qed.

(** A stored property of another type makes the predicate raise, unless an
    earlier field already differs. *)
Example needs_update_other_type :
  entry_needs_update (a_page "p0" (<[NOTION_WATER_PROP := POther]> core0)) snap0
    = Raise KeyError ∧
  entry_needs_update
    (a_page "p0" (<[NOTION_WATER_PROP := POther]> (<[NOTION_FATS_PROP := PNumber (VInt 7)]> core0)))
    snap0 = Val true.
Proof. split; reflexivity. Qed.

(** ** The two request bodies *)

Lemma getitem_Val {A} (d : gmap string A) (k : string) (v : A) :
  getitem d k = Val v ↔ d !! k = Some v.
Proof. unfold getitem. destruct (d !! k); split; congruence. Qed.

(** The properties of a create request are those of the update request for
    the same snapshot with the date added. *)
Lemma create_properties_update (mfp_data : gmap string value)
    (c : gmap string property) :
  create_properties mfp_data = Val c →
  ∃ u start,
    update_properties mfp_data = Val u ∧
    mfp_data !! "date" = Some start ∧
    c = <[NOTION_DATE_PROP := PDate start]> u ∧
    u !! NOTION_DATE_PROP = None.
Proof.
  unfold create_properties, update_properties.
  unfold mbind, mret, res_bind, res_ret.
  destruct (getitem mfp_data "date") as [start|] eqn:Hdate; [|discriminate].
  apply getitem_Val in Hdate.
  repeat (match goal with
          | |- context [match getitem ?d ?k with _ => _ end] =>
              destruct (getitem d k); [|discriminate]
          end).
  intros [= <-]. eexists _, start. split; [reflexivity|]. split; [done|].
  destruct (mfp_data !! "water_ml") as [[]|];
    (split;
     [by rewrite !(insert_insert_ne _ NOTION_DATE_PROP) by done
     |by repeat (rewrite lookup_insert_ne by done)]).
Qed.

Lemma update_properties_create (mfp_data : gmap string value)
    (u : gmap string property) (start : value) :
  update_properties mfp_data = Val u → mfp_data !! "date" = Some start →
  create_properties mfp_data = Val (<[NOTION_DATE_PROP := PDate start]> u).
Proof.
  intros Hu Hdate.
  destruct (create_properties mfp_data) as [c|e] eqn:Hc.
  - apply create_properties_update in Hc as (u' & start' & Hu' & Hdate' & -> & _).
    congruence.
  - revert Hu Hc. unfold create_properties, update_properties.
    unfold mbind, mret, res_bind, res_ret.
    apply getitem_Val in Hdate. rewrite Hdate.
    repeat (match goal with
            | |- context [match getitem ?d ?k with _ => _ end] =>
                destruct (getitem d k); [|discriminate]
            end).
    discriminate.
Qed.

(** C10: for one snapshot the create request carries exactly the
    properties of the update request, name for name and value for value,
    and besides them only the date property and the fixed icon. *)
Theorem create_is_update_plus_date (database_id page_id : string)
    (mfp_data : gmap string value) (c : gmap string property) :
  create_properties mfp_data = Val c →
  ∃ u start,
    update_properties mfp_data = Val u ∧
    mfp_data !! "date" = Some start ∧
    (∀ name, name ≠ NOTION_DATE_PROP →
       pd_properties (make_page_data database_id c) !! name
       = ud_properties (make_update_data page_id u) !! name) ∧
    pd_properties (make_page_data database_id c) !! NOTION_DATE_PROP = Some (PDate start) ∧
    ud_properties (make_update_data page_id u) !! NOTION_DATE_PROP = None ∧
    pd_properties (make_page_data database_id c)
      = <[NOTION_DATE_PROP := PDate start]> (ud_properties (make_update_data page_id u)) ∧
    pd_icon_type (make_page_data database_id c) = "emoji" ∧
    pd_icon_emoji (make_page_data database_id c) = "🍎".
Proof.
  intros Hc.
  apply create_properties_update in Hc as (u & start & Hu & Hdate & -> & Hnone).
  exists u, start. simpl. split_and!; try done.
  - intros name Hname. by rewrite lookup_insert_ne.
  - by rewrite lookup_insert_eq.
Qed.

Lemma create_is_update_plus_date_witness :
  ∃ u start,
    update_properties snap0 = Val u ∧
    snap0 !! "date" = Some start ∧
    (∀ name, name ≠ NOTION_DATE_PROP →
       pd_properties (make_page_data "db" create0) !! name
       = ud_properties (make_update_data "p0" u) !! name) ∧
    pd_properties (make_page_data "db" create0) !! NOTION_DATE_PROP = Some (PDate start) ∧
    ud_properties (make_update_data "p0" u) !! NOTION_DATE_PROP = None ∧
    pd_properties (make_page_data "db" create0)
      = <[NOTION_DATE_PROP := PDate start]> (ud_properties (make_update_data "p0" u)) ∧
    pd_icon_type (make_page_data "db" create0) = "emoji" ∧
    pd_icon_emoji (make_page_data "db" create0) = "🍎".
Proof.
  apply (create_is_update_plus_date "db" "p0" snap0 create0). reflexivity.
Defined.

Example requests_of_snap0 :
  create_properties snap0 = Val create0 ∧ update_properties snap0 = Val update0.
Proof. split; reflexivity. Qed.

(** A snapshot without the water key, or with a null water, gives requests
    without the water property. *)
Example requests_without_water :
  (update_properties (delete "water_ml" snap0) ≫= λ u, Val (u !! NOTION_WATER_PROP))
    = Val None ∧
  (create_properties (<["water_ml" := VNone]> snap0) ≫= λ c, Val (c !! NOTION_WATER_PROP))
    = Val None.
Proof. split; reflexivity. Qed.

(** The update request of a snapshot that holds the six numbers and a
    water that is not null. *)
Lemma update_properties_full (snap : gmap string value)
    (calories_in calories_out net protein carbs fats water : value) :
  snap !! "calories_in" = Some calories_in →
  snap !! "calories_out_exercise" = Some calories_out →
  snap !! "net_calories" = Some net →
  snap !! "protein" = Some protein →
  snap !! "carbs" = Some carbs →
  snap !! "fats" = Some fats →
  snap !! "water_ml" = Some water → water ≠ VNone →
  update_properties snap = Val
    (<[NOTION_WATER_PROP := PNumber water]>
    (<[NOTION_FATS_PROP := PNumber fats]>
    (<[NOTION_CARBS_PROP := PNumber carbs]>
    (<[NOTION_PROTEIN_PROP := PNumber protein]>
    (<[NOTION_NET_CALS_PROP := PNumber net]>
    (<[NOTION_CALS_OUT_PROP := PNumber calories_out]>
    (<[NOTION_CALS_IN_PROP := PNumber calories_in]> ∅))))))).
Proof.
  intros H1 H2 H3 H4 H5 H6 H7 Hwater.
  unfold update_properties, getitem. rewrite H1, H2, H3, H4, H5, H6, H7. simpl.
  by destruct water.
Qed.



(** ** The locator *)

Lemma entry_exists_eq {W} (R : remote W) (database_id entry_date_str : string) (w : W) :
  entry_exists R database_id entry_date_str w =
  match notion_query R database_id NOTION_DATE_PROP entry_date_str w with
  | (Val (Some (first :: _)), w1) =>
      (Val (Some first), w1, [NotionQuery database_id NOTION_DATE_PROP entry_date_str])
  | (_, w1) => (Val None, w1, [NotionQuery database_id NOTION_DATE_PROP entry_date_str])
  end.
Proof.
  unfold entry_exists, try_except, call.
  unfold mbind, mret, M_bind, M_ret.
  destruct (notion_query R _ _ _ w) as [[[[|first rest]|]|e] w1]; reflexivity.
Qed.

(** C5: when the store answers the exact-date query with a list of
    records, [entry_exists] returns the first of them, in the order of the
    store, and nothing when the list is empty; it does so with that one
    query. *)
Theorem entry_exists_takes_first {W} (R : remote W)
    (database_id entry_date_str : string) (w w' : W) (results : list page) :
  notion_query R database_id NOTION_DATE_PROP entry_date_str w = (Val (Some results), w') →
  entry_exists R database_id entry_date_str w
    = (Val (head results), w', [NotionQuery database_id NOTION_DATE_PROP entry_date_str]) ∧
  (∀ first rest, results = first :: rest →
     outcome_of (entry_exists R database_id entry_date_str w) = Val (Some first)) ∧
  (results = [] →
     outcome_of (entry_exists R database_id entry_date_str w) = Val None).
Proof.
  intros Hq. rewrite entry_exists_eq, Hq.
  destruct results as [|first rest]; simpl; split_and!; try done.
  by intros ? ? [= -> ->].
Qed.

Lemma entry_exists_takes_first_witness :
  entry_exists demo "db" "2024-05-17" world_dup
    = (Val (head [page0_protein; page0_water]), world_dup, [query0]) ∧
  (∀ first rest, [page0_protein; page0_water] = first :: rest →
     outcome_of (entry_exists demo "db" "2024-05-17" world_dup) = Val (Some first)) ∧
  ([page0_protein; page0_water] = [] →
     outcome_of (entry_exists demo "db" "2024-05-17" world_dup) = Val None).
Proof.
  apply (entry_exists_takes_first demo "db" "2024-05-17" world_dup world_dup
           [page0_protein; page0_water]).
  reflexivity.
Defined.

(** ** The configuration checks *)

Lemma main_without_configuration {W} (R : remote W) (cfg : config) (w : W) :
  str_truthy (NOTION_TOKEN cfg) = false ∨ str_truthy (NOTION_DATABASE_ID cfg) = false →
  main R cfg w = (Val tt, w, []).
Proof.
  unfold main. intros [H|H]; rewrite H; simpl; [done|].
  by destruct (str_truthy (NOTION_TOKEN cfg)).
Qed.

(** C8: with the store's token or the database identifier absent, [main]
    returns at once: its trace is empty, so no provider client is created
    and no request is sent, and the world is as it was. *)
Theorem main_aborts_without_configuration {W} (R : remote W) (cfg : config) (w : W) :
  NOTION_TOKEN cfg = None ∨ NOTION_DATABASE_ID cfg = None →
  main R cfg w = (Val tt, w, []) ∧
  (MfpClient ∉ trace_of (main R cfg w)) ∧
  Forall (λ ev, is_store_event ev = false) (trace_of (main R cfg w)).
Proof.
  intros H.
  assert (Hmain : main R cfg w = (Val tt, w, [])).
  { apply main_without_configuration. destruct H as [-> | ->]; auto. }
  rewrite Hmain. simpl. split_and!; [done| |constructor].
  apply not_elem_of_nil.
Qed.

Lemma main_aborts_without_configuration_witness :
  main demo {| NOTION_TOKEN := None; NOTION_DATABASE_ID := Some "db" |} world0
    = (Val tt, world0, []) ∧
  (MfpClient ∉ trace_of
    (main demo {| NOTION_TOKEN := None; NOTION_DATABASE_ID := Some "db" |} world0)) ∧
  Forall (λ ev, is_store_event ev = false)
    (trace_of (main demo {| NOTION_TOKEN := None; NOTION_DATABASE_ID := Some "db" |} world0)).
Proof.
  apply (main_aborts_without_configuration demo
           {| NOTION_TOKEN := None; NOTION_DATABASE_ID := Some "db" |} world0).
  left. reflexivity.
Defined.

Example main_with_empty_database_id :
  main demo {| NOTION_TOKEN := Some "secret"; NOTION_DATABASE_ID := Some "" |} world0
    = (Val tt, world0, []).
Proof. reflexivity. Qed.

(** ** The writers *)


Lemma update_notion_entry_eq {W} (R : remote W) (page_id : string)
    (mfp_data : gmap string value) (w : W) :
  update_notion_entry R page_id mfp_data w =
  match update_properties mfp_data with
  | Val u =>
      (match mfp_data !! "date" with
       | Some _ => Val tt
       | None => Raise KeyError
       end,
       (notion_update R (make_update_data page_id u) w).2,
       [NotionUpdate (make_update_data page_id u)])
  | Raise e => (Raise e, w, [])
  end.
Proof.
  unfold update_notion_entry, try_except, call, lift, getitem.
  unfold mbind, mret, M_bind, M_ret.
  destruct (update_properties mfp_data) as [u|e]; [|reflexivity]. simpl.
  destruct (notion_update R _ w) as [[[]|e] w1]; simpl;
    destruct (mfp_data !! "date"); reflexivity.
Qed.

Lemma create_notion_entry_eq {W} (R : remote W) (database_id : string)
    (mfp_data : gmap string value) (w : W) :
  create_notion_entry R database_id mfp_data w =
  match create_properties mfp_data with
  | Val c =>
      (Val tt,
       (notion_create R (make_page_data database_id c) w).2,
       [NotionCreate (make_page_data database_id c)])
  | Raise e => (Raise e, w, [])
  end.
Proof.
  unfold create_notion_entry, try_except, call, lift.
  unfold mbind, mret, M_bind, M_ret.
  destruct (create_properties mfp_data) as [c|e] eqn:Hc; [|reflexivity]. simpl.
  apply create_properties_update in Hc as (u & start & _ & Hdate & _).
  unfold getitem. rewrite Hdate.
  destruct (notion_create R _ w) as [[[]|e] w1]; reflexivity.
Qed.

Lemma snapshot_requests (td : date) (d : Day) (water : value)
    (snap : gmap string value) :
  snapshot_of td d water = Val snap →
  dict_truthy snap = true ∧
  snap !! "date" = Some (VStr (strftime td)) ∧
  ∃ u, update_properties snap = Val u ∧
       create_properties snap
       = Val (<[NOTION_DATE_PROP := PDate (VStr (strftime td))]> u).
Proof.
  intros Hs.
  apply snapshot_of_fields in Hs
    as (out & net & _ & _ & Hdate & Hin & Hex & Hnet & Hp & Hc & Hf & Hwater & Htruthy).
  apply snapshot_integer_field in Hin as (zi & Hin & _).
  apply snapshot_integer_field in Hex as (zo & Hex & _).
  apply snapshot_integer_field in Hnet as (zn & Hnet & _).
  apply snapshot_integer_field in Hp as (zp & Hp & _).
  apply snapshot_integer_field in Hc as (zc & Hc & _).
  apply snapshot_integer_field in Hf as (zf & Hf & _).
  assert (Hv : match water with VNone => VInt 0 | _ => water end ≠ VNone)
    by (by destruct water).
  pose proof (update_properties_full snap _ _ _ _ _ _ _ Hin Hex Hnet Hp Hc Hf Hwater Hv) as Hu.
  split_and!; try done. eexists. split; [exact Hu|].
  by apply update_properties_create.
Qed.

Lemma update_properties_lookup (mfp_data : gmap string value)
    (u : gmap string property) :
  update_properties mfp_data = Val u →
  (∀ name key, (name, key) ∈ core_fields → u !! name = PNumber <$> mfp_data !! key) ∧
  u !! NOTION_WATER_PROP
    = match mfp_data !! "water_ml" with
      | Some VNone | None => None
      | Some water_ml => Some (PNumber water_ml)
      end ∧
  (∀ name, is_Some (u !! name) → name ∈ numeric_props).
Proof.
  unfold update_properties, getitem. unfold mbind, mret, res_bind, res_ret.
  destruct (mfp_data !! "calories_in") as [v1|] eqn:H1; [|discriminate].
  destruct (mfp_data !! "calories_out_exercise") as [v2|] eqn:H2; [|discriminate].
  destruct (mfp_data !! "net_calories") as [v3|] eqn:H3; [|discriminate].
  destruct (mfp_data !! "protein") as [v4|] eqn:H4; [|discriminate].
  destruct (mfp_data !! "carbs") as [v5|] eqn:H5; [|discriminate].
  destruct (mfp_data !! "fats") as [v6|] eqn:H6; [|discriminate].
  intros [= <-]. split_and!.
  - intros name key Hin. apply list_elem_of_In in Hin. simpl in Hin.
    destruct Hin as [[= <- <-]|[[= <- <-]|[[= <- <-]|[[= <- <-]|[[= <- <-]|[[= <- <-]|[]]]]]]];
      rewrite ?H1, ?H2, ?H3, ?H4, ?H5, ?H6; simpl;
      destruct (mfp_data !! "water_ml") as [[]|];
      repeat (rewrite lookup_insert_ne by done); by rewrite lookup_insert_eq.
  - destruct (mfp_data !! "water_ml") as [[]|];
      repeat (rewrite lookup_insert_ne by done);
      rewrite ?lookup_insert_eq, ?lookup_empty; done.
  - intros name [x Hx].
    destruct (mfp_data !! "water_ml") as [[]|];
      repeat (apply lookup_insert_Some in Hx as [[<- _]|[_ Hx]]; [in_list|]);
      by rewrite lookup_empty in Hx.
Qed.

Lemma update_properties_missing (mfp_data : gmap string value) (key : string) :
  key ∈ core_fields.*2 → mfp_data !! key = None →
  update_properties mfp_data = Raise KeyError.
Proof.
  intros Hin Hnone. unfold update_properties, getitem. unfold mbind, res_bind.
  destruct (mfp_data !! "calories_in") eqn:H1; [|done].
  destruct (mfp_data !! "calories_out_exercise") eqn:H2; [|done].
  destruct (mfp_data !! "net_calories") eqn:H3; [|done].
  destruct (mfp_data !! "protein") eqn:H4; [|done].
  destruct (mfp_data !! "carbs") eqn:H5; [|done].
  destruct (mfp_data !! "fats") eqn:H6; [|done].
  apply list_elem_of_In in Hin. simpl in Hin.
  destruct Hin as [<-|[<-|[<-|[<-|[<-|[<-|[]]]]]]]; congruence.
Qed.




(** The update request for [snap0] is sent, and is the create request's
    properties without the date. *)
Example update_request_of_snap0 :
  create_properties snap0 = Val create0 ∧
  delete NOTION_DATE_PROP create0 = update0 ∧
  update_notion_entry demo "p0" snap0 world_dup
  = (Val tt, (notion_update demo (make_update_data "p0" update0) world_dup).2,
     [NotionUpdate (make_update_data "p0" update0)]).
Proof. split_and!; reflexivity. Qed.

(** On the demo store the update of the page that stores another protein
    replaces the protein and keeps the date. *)
Example update_on_demo_store :
  let w := world_of (update_notion_entry demo "p0" snap0 world_dup) in
  demo_stored world_dup "p0" ≫= (λ props, props !! NOTION_PROTEIN_PROP)
    = Some (PNumber (VInt 90)) ∧
  demo_stored w "p0" ≫= (λ props, props !! NOTION_PROTEIN_PROP)
    = Some (PNumber (VInt 0)) ∧
  demo_stored w "p0" ≫= (λ props, props !! NOTION_DATE_PROP)
    = Some (PDate (VStr "2024-05-17")).
Proof. split_and!; reflexivity. Qed.

(** ** One date of the pipeline *)

Lemma process_date_eq {W} (R : remote W) (database_id : string) (td : date) (w : W) :
  process_date R database_id td w =
  match get_mfp_data_for_date R td w with
  | (Val (Some snap), w1, t1) =>
      if dict_truthy snap then
        match entry_exists R database_id (strftime td) w1 with
        | (Val (Some pg), w2, t2) =>
            match entry_needs_update pg snap with
            | Val true =>
                let '(r, w3, t3) := update_notion_entry R (page_id pg) snap w2 in
                (r, w3, t1 ++ t2 ++ t3)
            | Val false => (Val tt, w2, t1 ++ t2)
            | Raise e => (Raise e, w2, t1 ++ t2)
            end
        | (Val None, w2, t2) =>
            let '(r, w3, t3) := create_notion_entry R database_id snap w2 in
            (r, w3, t1 ++ t2 ++ t3)
        | (Raise e, w2, t2) => (Raise e, w2, t1 ++ t2)
        end
      else (Val tt, w1, t1)
  | (Val None, w1, t1) => (Val tt, w1, t1)
  | (Raise e, w1, t1) => (Raise e, w1, t1)
  end.
Proof.
  unfold process_date. unfold mbind, mret, M_bind, M_ret, lift.
  destruct (get_mfp_data_for_date R td w) as [[[[snap|]|e] w1] t1];
    rewrite ?app_nil_r; try reflexivity.
  destruct (dict_truthy snap); simpl; rewrite ?app_nil_r; [|reflexivity].
  destruct (entry_exists R database_id (strftime td) w1) as [[[[pg|]|e] w2] t2];
    try reflexivity.
  - destruct (entry_needs_update pg snap) as [[]|e]; rewrite ?app_nil_r;
      try reflexivity.
    by destruct (update_notion_entry R (page_id pg) snap w2) as [[r w3] t3].
  - by destruct (create_notion_entry R database_id snap w2) as [[r w3] t3].
Qed.

(** C6: for a date whose snapshot was read, a store query that raises
    gives the same answer as a query that finds nothing; when no record is
    found the date ends with one create request and no update; and a date
    that ends normally without a write had a record found for which the
    update predicate was false. *)
Theorem missing_record_means_create {W} (R : remote W) (database_id : string)
    (td : date) (w w1 : W) (t1 : list event) (snap : gmap string value) :
  get_mfp_data_for_date R td w = (Val (Some snap), w1, t1) →
  (∀ e w2,
     notion_query R database_id NOTION_DATE_PROP (strftime td) w1 = (Raise e, w2) →
     entry_exists R database_id (strftime td) w1
     = (Val None, w2, [NotionQuery database_id NOTION_DATE_PROP (strftime td)])) ∧
  (∀ w2,
     notion_query R database_id NOTION_DATE_PROP (strftime td) w1 = (Val (Some []), w2) →
     entry_exists R database_id (strftime td) w1
     = (Val None, w2, [NotionQuery database_id NOTION_DATE_PROP (strftime td)])) ∧
  (∀ w2 t2,
     entry_exists R database_id (strftime td) w1 = (Val None, w2, t2) →
     ∃ c, create_properties snap = Val c ∧
          process_date R database_id td w
          = (Val tt, (notion_create R (make_page_data database_id c) w2).2,
             t1 ++ t2 ++ [NotionCreate (make_page_data database_id c)]) ∧
          existsb is_update (trace_of (process_date R database_id td w)) = false) ∧
  (outcome_of (process_date R database_id td w) = Val tt →
   existsb is_write (trace_of (process_date R database_id td w)) = false →
   ∃ pg w2 t2,
     entry_exists R database_id (strftime td) w1 = (Val (Some pg), w2, t2) ∧
     entry_needs_update pg snap = Val false).
Proof.
  intros Hget.
  pose proof Hget as Hget'.
  apply get_mfp_data_for_date_Some in Hget' as (d & w0 & water & _ & _ & Hs & ->).
  apply snapshot_requests in Hs as (Htruthy & _ & u & Hu & Hc).
  split_and!.
  - intros e w2 Hq. by rewrite entry_exists_eq, Hq.
  - intros w2 Hq. by rewrite entry_exists_eq, Hq.
  - intros w2 t2 Hex. eexists. split; [exact Hc|].
    rewrite process_date_eq, Hget, Htruthy, Hex, create_notion_entry_eq, Hc.
    split; [reflexivity|].
    rewrite entry_exists_eq in Hex.
    destruct (notion_query R _ _ _ w1) as [[[[|first rest]|]|e] w3];
      simplify_eq; reflexivity.
  - rewrite process_date_eq, Hget, Htruthy, entry_exists_eq.
    destruct (notion_query R _ _ _ w1) as [[[[|first rest]|]|e] w3];
      try (rewrite create_notion_entry_eq, Hc; simpl; intros _ [=]).
    destruct (entry_needs_update first snap) as [[]|e] eqn:Hneed.
    + rewrite update_notion_entry_eq, Hu. simpl. intros _ [=].
    + intros _ _. by eexists _, _, _.
    + intros [=].
Qed.

Lemma missing_record_means_create_witness :
  (∀ e w2,
     notion_query demo "db" NOTION_DATE_PROP (strftime may17) world_down = (Raise e, w2) →
     entry_exists demo "db" (strftime may17) world_down
     = (Val None, w2, [NotionQuery "db" NOTION_DATE_PROP (strftime may17)])) ∧
  (∀ w2,
     notion_query demo "db" NOTION_DATE_PROP (strftime may17) world_down = (Val (Some []), w2) →
     entry_exists demo "db" (strftime may17) world_down
     = (Val None, w2, [NotionQuery "db" NOTION_DATE_PROP (strftime may17)])) ∧
  (∀ w2 t2,
     entry_exists demo "db" (strftime may17) world_down = (Val None, w2, t2) →
     ∃ c, create_properties snap0 = Val c ∧
          process_date demo "db" may17 world_down
          = (Val tt, (notion_create demo (make_page_data "db" c) w2).2,
             reads0 ++ t2 ++ [NotionCreate (make_page_data "db" c)]) ∧
          existsb is_update (trace_of (process_date demo "db" may17 world_down)) = false) ∧
  (outcome_of (process_date demo "db" may17 world_down) = Val tt →
   existsb is_write (trace_of (process_date demo "db" may17 world_down)) = false →
   ∃ pg w2 t2,
     entry_exists demo "db" (strftime may17) world_down = (Val (Some pg), w2, t2) ∧
     entry_needs_update pg snap0 = Val false).
Proof.
  apply (missing_record_means_create demo "db" may17 world_down world_down reads0 snap0).
  reflexivity.
Defined.

(** The three decisions on the demo store: a failing query ends in a
    create although the record is stored, a stored record that agrees ends
    without a write, and one that differs ends in an update of it. *)
Example decisions_on_demo_store :
  trace_of (process_date demo "db" may17 world_down)
    = reads0 ++ [query0; NotionCreate (make_page_data "db" create0)] ∧
  trace_of (process_date demo "db" may17
              (a_world (Val (Some day0)) (Val (VInt 500)) false [page0_water]))
    = reads0 ++ [query0] ∧
  trace_of (process_date demo "db" may17 world_dup)
    = reads0 ++ [query0; NotionUpdate (make_update_data "p0" update0)].
Proof. split_and!; reflexivity. Qed.

(** ** Dates the provider has nothing for *)

Lemma sync_dates_cons {W} (R : remote W) (database_id : string)
    (td : date) (rest : list date) (w : W) :
  sync_dates R database_id (td :: rest) w =
  match process_date R database_id td w with
  | (Val _, w1, t1) =>
      let '(r, w2, t2) := sync_dates R database_id rest w1 in (r, w2, t1 ++ t2)
  | (Raise e, w1, t1) => (Raise e, w1, t1)
  end.
Proof. reflexivity. Qed.

(** C7: when the provider has no data for the date, or one of its two
    calls raises, or the values it returned cannot be summed and rounded,
    [get_mfp_data_for_date] returns [None]; the date then ends normally
    with the provider's calls only, no query, create or update, and the
    loop goes on with the dates that remain. *)
Theorem provider_failure_skips_the_date {W} (R : remote W) (database_id : string)
    (td : date) (rest : list date) (w w1 : W) :
  mfp_get_date R (year td) (month td) (day td) w = (Val None, w1)
  ∨ (∃ e, mfp_get_date R (year td) (month td) (day td) w = (Raise e, w1))
  ∨ (∃ d w0 e,
       mfp_get_date R (year td) (month td) (day td) w = (Val (Some d), w0) ∧
       mfp_get_water R td w0 = (Raise e, w1))
  ∨ (∃ d w0 water e,
       mfp_get_date R (year td) (month td) (day td) w = (Val (Some d), w0) ∧
       mfp_get_water R td w0 = (Val water, w1) ∧
       snapshot_of td d water = Raise e) →
  ∃ t,
    get_mfp_data_for_date R td w = (Val None, w1, t) ∧
    process_date R database_id td w = (Val tt, w1, t) ∧
    existsb is_store_event t = false ∧
    sync_dates R database_id (td :: rest) w
    = (let '(r, w2, t2) := sync_dates R database_id rest w1 in (r, w2, t ++ t2)).
Proof.
  intros H.
  assert (Hget : ∃ t, get_mfp_data_for_date R td w = (Val None, w1, t) ∧
                      existsb is_store_event t = false).
  { rewrite get_mfp_data_for_date_eq.
    destruct H as [H|[[e H]|[(d & w0 & e & H & Hw)|(d & w0 & water & e & H & Hw & Hs)]]];
      rewrite H, ?Hw, ?Hs; by eexists. }
  destruct Hget as (t & Hget & Ht). exists t.
  assert (Hp : process_date R database_id td w = (Val tt, w1, t))
    by (by rewrite process_date_eq, Hget).
  split_and!; try done.
  by rewrite sync_dates_cons, Hp.
Qed.

Lemma provider_failure_skips_the_date_witness :
  ∃ t,
    get_mfp_data_for_date demo may17 world_nodata = (Val None, world_nodata, t) ∧
    process_date demo "db" may17 world_nodata = (Val tt, world_nodata, t) ∧
    existsb is_store_event t = false ∧
    sync_dates demo "db" [may17; may17] world_nodata
    = (let '(r, w2, t2) := sync_dates demo "db" [may17] world_nodata in (r, w2, t ++ t2)).
Proof.
  apply (provider_failure_skips_the_date demo "db" may17 [may17] world_nodata world_nodata).
  left. reflexivity.
Defined.

(** The three provider failures on the demo store, each with a record
    stored for the date, and a day whose calories are no number. *)
Example skipped_dates :
  process_date demo "db" may17 world_nodata = (Val tt, world_nodata, [MfpGetDate 2024 5 17]) ∧
  process_date demo "db" may17 world_noday = (Val tt, world_noday, [MfpGetDate 2024 5 17]) ∧
  process_date demo "db" may17 world_nowater = (Val tt, world_nowater, reads0) ∧
  process_date demo "db" may17
    (a_world (Val (Some (a_day (VStr "many") []))) (Val VNone) false [])
  = (Val tt, a_world (Val (Some (a_day (VStr "many") []))) (Val VNone) false [], reads0).
Proof. split_and!; reflexivity. Qed.

(** A failing provider client ends [main] after the attempt. *)
Example main_without_provider_client :
  main {| mfp_Client w := (Raise RemoteError, w);
          mfp_get_date := mfp_get_date demo;
          mfp_get_water := mfp_get_water demo;
          notion_query := notion_query demo;
          notion_create := notion_create demo;
          notion_update := notion_update demo;
          clock_today := clock_today demo |}
       {| NOTION_TOKEN := Some "secret"; NOTION_DATABASE_ID := Some "db" |} world0
  = (Val tt, world0, [MfpClient]).
Proof. reflexivity. Qed.

(** * Further properties of the script *)

(** ** The reader *)

(** X1: whatever the provider does, [get_mfp_data_for_date] returns
    without raising; it calls [get_date] once and [get_water] once after
    it, the second only when [get_date] returned a day, and it never calls
    the store. *)
Theorem reader_never_raises {W} (R : remote W) (td : date) (w : W) :
  (∃ r, outcome_of (get_mfp_data_for_date R td w) = Val r) ∧
  (trace_of (get_mfp_data_for_date R td w)
     = [MfpGetDate (year td) (month td) (day td)]
   ∨ trace_of (get_mfp_data_for_date R td w)
     = [MfpGetDate (year td) (month td) (day td); MfpGetWater td]) ∧
  (MfpGetWater td ∈ trace_of (get_mfp_data_for_date R td w) ↔
   ∃ d w1, mfp_get_date R (year td) (month td) (day td) w = (Val (Some d), w1)) ∧
  existsb is_store_event (trace_of (get_mfp_data_for_date R td w)) = false.
Proof.
  rewrite get_mfp_data_for_date_eq.
  destruct (mfp_get_date R _ _ _ w) as [[[d|]|e] w1] eqn:Hd.
  - assert (Ht : ∀ x : res (option (gmap string value)) * W * list event,
              x = match mfp_get_water R td w1 with
                  | (Val water, w2) =>
                      (Val (match snapshot_of td d water with
                            | Val snap => Some snap
                            | Raise _ => None
                            end),
                       w2, [MfpGetDate (year td) (month td) (day td); MfpGetWater td])
                  | (Raise _, w2) =>
                      (Val None, w2,
                       [MfpGetDate (year td) (month td) (day td); MfpGetWater td])
                  end →
              (∃ r, outcome_of x = Val r) ∧
              trace_of x = [MfpGetDate (year td) (month td) (day td); MfpGetWater td]).
    { intros x ->. destruct (mfp_get_water R td w1) as [[water|e] w2]; eauto. }
    destruct (Ht _ eq_refl) as [Hr Htr]. rewrite Htr.
    split_and!; [done|by right| |done].
    split; [by eexists _, _|]. intros _. apply list_elem_of_In. simpl. tauto.
  - split_and!; [by eexists|by left| |done]. simpl. split.
    + intros [=]%list_elem_of_singleton.
    + by intros (d & w2 & [=]).
  - split_and!; [by eexists|by left| |done]. simpl. split.
    + intros [=]%list_elem_of_singleton.
    + by intros (d & w2 & [=]).
Qed.

Lemma exercise_calories_raises (d : Day) (e : exn) :
  exercise_calories d = Raise e → e = TypeError.
Proof.
  assert (Hadd : ∀ a b, py_add a b = Raise e → e = TypeError).
  { intros [|x|x|x] [|y|y|y]; simpl; congruence. }
  assert (Hes : ∀ es acc, add_entries acc es = Raise e → e = TypeError).
  { induction es as [|en es IH]; simpl; intros acc; [discriminate|].
    unfold mbind, res_bind.
    destruct (py_add acc _) as [acc'|e'] eqn:Ha; [apply IH|].
    intros [= ->]. by eapply Hadd. }
  assert (Hgs : ∀ gs acc, add_groups acc gs = Raise e → e = TypeError).
  { induction gs as [|g gs IH]; simpl; intros acc; [discriminate|].
    unfold mbind, res_bind.
    destruct (add_entries acc _) as [acc'|e'] eqn:Ha; [apply IH|].
    intros [= ->]. by eapply Hes. }
  unfold exercise_calories. destruct (exercises d); [discriminate|apply Hgs].
Qed.

(** X2: a calories total that is present and null is not read as 0: the
    subtraction raises before [round(calories_in or 0)] is reached, and
    the reader returns [None] for the date. *)
Theorem null_calories_gives_no_snapshot {W} (R : remote W) (td : date)
    (w w0 w1 : W) (d : Day) (water : value) :
  mfp_get_date R (year td) (month td) (day td) w = (Val (Some d), w0) →
  mfp_get_water R td w0 = (Val water, w1) →
  totals d !! "calories" = Some VNone →
  snapshot_of td d water = Raise TypeError ∧
  get_mfp_data_for_date R td w
  = (Val None, w1, [MfpGetDate (year td) (month td) (day td); MfpGetWater td]).
Proof.
  intros Hd Hw Hnull.
  assert (Hs : snapshot_of td d water = Raise TypeError).
  { unfold snapshot_of, dict_get. rewrite Hnull.
    unfold mbind, res_bind.
    destruct (exercise_calories d) as [out|e] eqn:Hout; [done|].
    by rewrite (exercise_calories_raises _ _ Hout). }
  split; [done|]. by rewrite get_mfp_data_for_date_eq, Hd, Hw, Hs.
Qed.

Lemma null_calories_gives_no_snapshot_witness :
  snapshot_of may17 day_null_calories (VInt 500) = Raise TypeError ∧
  get_mfp_data_for_date demo may17
    (a_world (Val (Some day_null_calories)) (Val (VInt 500)) false [])
  = (Val None, a_world (Val (Some day_null_calories)) (Val (VInt 500)) false [],
     [MfpGetDate (year may17) (month may17) (day may17); MfpGetWater may17]).
Proof.
  apply (null_calories_gives_no_snapshot demo may17
           (a_world (Val (Some day_null_calories)) (Val (VInt 500)) false [])
           (a_world (Val (Some day_null_calories)) (Val (VInt 500)) false [])
           (a_world (Val (Some day_null_calories)) (Val (VInt 500)) false [])
           day_null_calories (VInt 500)); reflexivity.
Defined.

(** X3: a protein, carbohydrates or fat total that is null, zero or an
    empty string is read as 0 in the snapshot. *)
Theorem falsy_total_reads_zero {W} (R : remote W) (td : date)
    (w w0 w' : W) (t : list event) (d : Day) (snap : gmap string value) :
  mfp_get_date R (year td) (month td) (day td) w = (Val (Some d), w0) →
  get_mfp_data_for_date R td w = (Val (Some snap), w', t) →
  (truthy (dict_get (totals d) "protein" (VInt 0)) = false →
   snap !! "protein" = Some (VInt 0)) ∧
  (truthy (dict_get (totals d) "carbohydrates" (VInt 0)) = false →
   snap !! "carbs" = Some (VInt 0)) ∧
  (truthy (dict_get (totals d) "fat" (VInt 0)) = false →
   snap !! "fats" = Some (VInt 0)).
Proof.
  intros Hd Hget.
  apply get_mfp_data_for_date_Some in Hget as (d' & w1 & water & Hd' & _ & Hs & _).
  assert (d' = d) as -> by congruence.
  apply snapshot_of_fields in Hs
    as (out & net & _ & _ & _ & _ & _ & _ & Hp & Hc & Hf & _).
  unfold py_or in Hp, Hc, Hf.
  split_and!; intros Hfalsy.
  - rewrite Hfalsy in Hp. by destruct (snap !! "protein"); simplify_eq/=.
  - rewrite Hfalsy in Hc. by destruct (snap !! "carbs"); simplify_eq/=.
  - rewrite Hfalsy in Hf. by destruct (snap !! "fats"); simplify_eq/=.
Qed.

Lemma falsy_total_reads_zero_witness :
  (truthy (dict_get (totals day_null_protein) "protein" (VInt 0)) = false →
   snap_null_protein !! "protein" = Some (VInt 0)) ∧
  (truthy (dict_get (totals day_null_protein) "carbohydrates" (VInt 0)) = false →
   snap_null_protein !! "carbs" = Some (VInt 0)) ∧
  (truthy (dict_get (totals day_null_protein) "fat" (VInt 0)) = false →
   snap_null_protein !! "fats" = Some (VInt 0)).
Proof.
  apply (falsy_total_reads_zero demo may17
           (a_world (Val (Some day_null_protein)) (Val (VInt 500)) false [])
           (a_world (Val (Some day_null_protein)) (Val (VInt 500)) false [])
           (a_world (Val (Some day_null_protein)) (Val (VInt 500)) false [])
           reads0 day_null_protein snap_null_protein); reflexivity.
Defined.

(** ** The calories burned *)

Lemma add_entries_int (es : list Entry) (acc : Z) :
  forallb (λ e, is_int (burned e)) es = true →
  add_entries (VInt acc) es
  = Val (VInt (fold_left (λ a e, a + default 0 (int_value (burned e))) es acc)).
Proof.
  revert acc. induction es as [|e es IH]; simpl; intros acc Hes; [done|].
  apply andb_true_iff in Hes as [He Hes]. fold (burned e).
  destruct (burned e) as [|z|q|s]; try discriminate. simpl. by apply IH.
Qed.

Lemma add_entries_app (es1 es2 : list Entry) (acc : value) :
  add_entries acc (es1 ++ es2) = add_entries acc es1 ≫= λ acc', add_entries acc' es2.
Proof.
  revert acc. induction es1 as [|e es1 IH]; simpl; intros acc; [done|].
  unfold mbind, res_bind. destruct (py_add acc _); [apply IH|done].
Qed.

(** The two nested loops add up the entries of all groups in order. *)
Lemma add_groups_flat (gs : list Exercise) (acc : value) :
  add_groups acc gs = add_entries acc (concat (map entries gs)).
Proof.
  revert acc. induction gs as [|g gs IH]; simpl; intros acc; [done|].
  rewrite add_entries_app. unfold mbind, res_bind.
  destruct (add_entries acc (entries g)); [apply IH|done].
Qed.

Lemma exercise_calories_flat (d : Day) :
  exercise_calories d = add_entries (VInt 0) (all_entries d).
Proof.
  unfold exercise_calories, all_entries. rewrite <- add_groups_flat.
  by destruct (exercises d).
Qed.

(** X4: when the calories burned of every exercise entry are integers (an
    entry without the key counting as 0), the calories out of a day are
    exactly their sum over all entries of all groups, and that sum is the
    calories out of every snapshot read from the day. *)
Theorem exercise_calories_is_the_sum (d : Day) :
  forallb (λ e, is_int (burned e)) (all_entries d) = true →
  exercise_calories d = Val (VInt (total_burned d)) ∧
  ∀ td water snap,
    snapshot_of td d water = Val snap →
    snap !! "calories_out_exercise" = Some (VInt (total_burned d)).
Proof.
  intros Hall.
  assert (Hout : exercise_calories d = Val (VInt (total_burned d)))
    by (rewrite exercise_calories_flat; by apply add_entries_int).
  split; [done|]. intros td water snap Hs.
  apply snapshot_of_fields in Hs as (out & net & Hout' & _ & _ & _ & Hex & _).
  assert (out = VInt (total_burned d)) as -> by congruence.
  rewrite (py_round_or_zero (VInt (total_burned d)) _ eq_refl),
    round_half_even_inject in Hex.
  destruct (snap !! "calories_out_exercise"); simpl in Hex; congruence.
Qed.

Lemma exercise_calories_is_the_sum_witness :
  exercise_calories day0 = Val (VInt (total_burned day0)) ∧
  ∀ td water snap,
    snapshot_of td day0 water = Val snap →
    snap !! "calories_out_exercise" = Some (VInt (total_burned day0)).
Proof.
  apply (exercise_calories_is_the_sum day0). reflexivity.
Defined.

Example total_burned_day0 : total_burned day0 = 450.
Proof. reflexivity. Qed.

Lemma add_entries_not_number (es : list Entry) (acc : value) :
  Exists (λ e, number (burned e) = None) es →
  add_entries acc es = Raise TypeError.
Proof.
  revert acc. induction es as [|e es IH]; intros acc Hex; [by inversion Hex|].
  simpl. fold (burned e). unfold mbind, res_bind.
  destruct (py_add acc (burned e)) as [acc'|e'] eqn:Hadd.
  - apply IH. inversion Hex as [? ? Hhere|]; subst; [|done].
    exfalso. destruct acc as [|x|x|x], (burned e); simpl in *; congruence.
  - f_equal. destruct acc as [|x|x|x], (burned e); simpl in *; congruence.
Qed.

(** X5: one exercise entry whose calories burned are present and no number
    (null, say) makes the sum raise, and the reader returns [None] for the
    date whatever the other values are. *)
Theorem bad_exercise_entry_gives_no_snapshot {W} (R : remote W) (td : date)
    (w w0 w1 : W) (d : Day) (water : value) :
  mfp_get_date R (year td) (month td) (day td) w = (Val (Some d), w0) →
  mfp_get_water R td w0 = (Val water, w1) →
  Exists (λ e, number (burned e) = None) (all_entries d) →
  exercise_calories d = Raise TypeError ∧
  get_mfp_data_for_date R td w
  = (Val None, w1, [MfpGetDate (year td) (month td) (day td); MfpGetWater td]).
Proof.
  intros Hd Hw Hbad.
  assert (Hout : exercise_calories d = Raise TypeError)
    by (rewrite exercise_calories_flat; by apply add_entries_not_number).
  split; [done|].
  rewrite get_mfp_data_for_date_eq, Hd, Hw. unfold snapshot_of. by rewrite Hout.
Qed.

Lemma bad_exercise_entry_gives_no_snapshot_witness :
  exercise_calories day_null_burned = Raise TypeError ∧
  get_mfp_data_for_date demo may17
    (a_world (Val (Some day_null_burned)) (Val (VInt 500)) false [])
  = (Val None, a_world (Val (Some day_null_burned)) (Val (VInt 500)) false [],
     [MfpGetDate (year may17) (month may17) (day may17); MfpGetWater may17]).
Proof.
  apply (bad_exercise_entry_gives_no_snapshot demo may17
           (a_world (Val (Some day_null_burned)) (Val (VInt 500)) false [])
           (a_world (Val (Some day_null_burned)) (Val (VInt 500)) false [])
           (a_world (Val (Some day_null_burned)) (Val (VInt 500)) false [])
           day_null_burned (VInt 500)); try reflexivity.
  apply Exists_cons_tl, Exists_cons_hd. reflexivity.
Defined.

(** X6: each of the four totals the reader rounds ends up in the snapshot
    as an integer within one half of the provider's number. *)
Theorem rounded_totals_are_nearest {W} (R : remote W) (td : date)
    (w w0 w' : W) (t : list event) (d : Day) (snap : gmap string value) :
  mfp_get_date R (year td) (month td) (day td) w = (Val (Some d), w0) →
  get_mfp_data_for_date R td w = (Val (Some snap), w', t) →
  ∀ key total q,
    (key, total) ∈ rounded_totals →
    number (dict_get (totals d) total (VInt 0)) = Some q →
    ∃ z, snap !! key = Some (VInt z) ∧
         Z.abs (2 * Qnum q - 2 * z * Z.pos (Qden q)) ≤ Z.pos (Qden q).
Proof.
  intros Hd Hget key total q Hin Hq.
  apply get_mfp_data_for_date_Some in Hget as (d' & w1 & water & Hd' & _ & Hs & _).
  assert (d' = d) as -> by congruence.
  apply snapshot_of_fields in Hs
    as (out & net & _ & _ & _ & Hci & _ & _ & Hp & Hc & Hf & _).
  exists (round_half_even q). split; [|apply round_half_even_nearest].
  apply list_elem_of_In in Hin. simpl in Hin.
  destruct Hin as [[= <- <-]|[[= <- <-]|[[= <- <-]|[[= <- <-]|[]]]]];
    rewrite (py_round_or_zero _ _ Hq) in *.
  - by destruct (snap !! "calories_in"); simplify_eq/=.
  - by destruct (snap !! "protein"); simplify_eq/=.
  - by destruct (snap !! "carbs"); simplify_eq/=.
  - by destruct (snap !! "fats"); simplify_eq/=.
Qed.

Lemma rounded_totals_are_nearest_witness :
  ∃ z, snap1 !! "calories_in" = Some (VInt z) ∧
       Z.abs (2 * Qnum (7 # 4) - 2 * z * Z.pos (Qden (7 # 4))) ≤ Z.pos (Qden (7 # 4)).
Proof.
  apply (rounded_totals_are_nearest demo may17 world1 world1 world1 reads0 day1 snap1
           eq_refl eq_refl "calories_in" "calories" (7 # 4)); [|reflexivity].
  apply list_elem_of_In. simpl. tauto.
Defined.

(** ** The locator and the update predicate *)

(** X7: whatever the store does, [entry_exists] returns without raising
    after exactly one query, which filters the date property on equality
    with the given string; a falsy response gives [None]. *)
Theorem entry_exists_asks_once {W} (R : remote W)
    (database_id entry_date_str : string) (w : W) :
  trace_of (entry_exists R database_id entry_date_str w)
    = [NotionQuery database_id "Date" entry_date_str] ∧
  (∃ r, outcome_of (entry_exists R database_id entry_date_str w) = Val r) ∧
  world_of (entry_exists R database_id entry_date_str w)
    = (notion_query R database_id "Date" entry_date_str w).2 ∧
  (∀ w1, notion_query R database_id "Date" entry_date_str w = (Val None, w1) →
         outcome_of (entry_exists R database_id entry_date_str w) = Val None).
Proof.
  rewrite entry_exists_eq. change NOTION_DATE_PROP with "Date".
  destruct (notion_query R database_id "Date" entry_date_str w)
    as [[[[|first rest]|]|e] w1]; split_and!; try done; by eexists.
Qed.

Lemma entry_needs_update_agree (page1 page2 : page)
    (data1 data2 : gmap string value) :
  (∀ name, name ∈ numeric_props →
           page_properties page1 !! name = page_properties page2 !! name) →
  (∀ key, key ∈ numeric_keys → data1 !! key = data2 !! key) →
  entry_needs_update page1 data1 = entry_needs_update page2 data2.
Proof.
  intros Hp Hd.
  unfold entry_needs_update, field_differs, get_notion_number, getitem, dict_get.
  rewrite (Hp NOTION_CALS_IN_PROP), (Hp NOTION_CALS_OUT_PROP),
    (Hp NOTION_NET_CALS_PROP), (Hp NOTION_PROTEIN_PROP), (Hp NOTION_CARBS_PROP),
    (Hp NOTION_FATS_PROP), (Hp NOTION_WATER_PROP) by in_list.
  rewrite (Hd "calories_in"), (Hd "calories_out_exercise"), (Hd "net_calories"),
    (Hd "protein"), (Hd "carbs"), (Hd "fats"), (Hd "water_ml") by in_list.
  reflexivity.
Qed.

(** X8: [entry_needs_update] looks at the seven numeric properties of the
    page and the seven numeric keys of the snapshot and at nothing else:
    pages and snapshots that agree there get the same answer, or the same
    exception. *)
Theorem entry_needs_update_reads_only_numeric (page1 page2 : page)
    (data1 data2 : gmap string value) :
  (∀ name, name ∈ numeric_props →
           page_properties page1 !! name = page_properties page2 !! name) →
  (∀ key, key ∈ numeric_keys → data1 !! key = data2 !! key) →
  entry_needs_update page1 data1 = entry_needs_update page2 data2.
Proof. apply entry_needs_update_agree. Qed.

Lemma entry_needs_update_reads_only_numeric_witness :
  entry_needs_update page0_water snap0 = entry_needs_update page0_undated snap0_redated.
Proof.
  apply (entry_needs_update_reads_only_numeric page0_water page0_undated snap0 snap0_redated).
  - intros name Hin. apply list_elem_of_In in Hin. simpl in Hin.
    destruct Hin as [<-|[<-|[<-|[<-|[<-|[<-|[<-|[]]]]]]]]; reflexivity.
  - intros key Hin. apply list_elem_of_In in Hin. simpl in Hin.
    destruct Hin as [<-|[<-|[<-|[<-|[<-|[<-|[<-|[]]]]]]]]; reflexivity.
Defined.

(** X9: a stored calories-in property that is no number property makes
    [entry_needs_update] raise [KeyError], whatever the snapshot and the
    other properties are. *)
Theorem entry_needs_update_other_type (existing_page : page)
    (new_data : gmap string value) (p : property) :
  page_properties existing_page !! NOTION_CALS_IN_PROP = Some p →
  (∀ n, p ≠ PNumber n) →
  entry_needs_update existing_page new_data = Raise KeyError.
Proof.
  intros Hp Hother.
  unfold entry_needs_update, or_else, field_differs, get_notion_number.
  rewrite Hp. destruct p as [n| |]; [by destruct (Hother n)|done|done].
Qed.

Lemma entry_needs_update_other_type_witness :
  entry_needs_update page0_text snap0 = Raise KeyError.
Proof.
  apply (entry_needs_update_other_type page0_text snap0 POther); [reflexivity|done].
Defined.

(** X10: the fields are compared in order and the comparison stops at the
    first that differs: with different integers stored and new for the
    calories in, the answer is true whatever else the page stores, be it
    properties of another type. *)
Theorem entry_needs_update_stops_at_first (existing_page : page)
    (new_data : gmap string value) (a b : Z) :
  page_properties existing_page !! NOTION_CALS_IN_PROP = Some (PNumber (VInt a)) →
  new_data !! "calories_in" = Some (VInt b) →
  a ≠ b →
  entry_needs_update existing_page new_data = Val true.
Proof.
  intros Hp Hd Hab.
  unfold entry_needs_update, or_else, field_differs, get_notion_number, getitem.
  rewrite Hp, Hd. simpl.
  assert (Hne : py_ne (VInt a) (VInt b) = true).
  { unfold py_ne, py_eq. simpl. apply negb_true_iff.
    destruct (Qeq_bool (inject_Z a) (inject_Z b)) eqn:Heq; [|done].
    apply Qeq_bool_iff in Heq. unfold Qeq in Heq. simpl in Heq. lia. }
  by rewrite Hne.
Qed.

Lemma entry_needs_update_stops_at_first_witness :
  entry_needs_update
    (a_page "p0" (<[NOTION_WATER_PROP := POther]> (<[NOTION_CALS_IN_PROP := PNumber (VInt 7)]> core0)))
    snap0 = Val true.
Proof.
  apply (entry_needs_update_stops_at_first _ snap0 7 2100); [reflexivity|reflexivity|lia].
Defined.

(** ** The requests and the predicate together *)

Lemma typed_prop_number (v : value) :
  is_number v → typed_prop (Some (PNumber v)) = true.
Proof. intros [q Hq]. unfold typed_prop, is_numberb. by destruct v. Qed.

Lemma same_number_does_not_differ (props : gmap string property)
    (new_data : gmap string value) (name key : string) (v : value) :
  props !! name = Some (PNumber v) → new_data !! key = Some v → is_number v →
  differsb props new_data (name, key) = false.
Proof.
  intros Hp Hd [q Hq]. unfold differsb, stored_number, new_number. simpl.
  rewrite Hp, Hd, Hq. simpl. apply negb_false_iff, Qeq_bool_iff. reflexivity.
Qed.

(** A page that stores, under each of the seven names, the number the
    snapshot holds under the matching key needs no update. *)
Lemma page_with_snapshot_numbers (existing_page : page) (new_data : gmap string value) :
  numeric_snapshot new_data = true →
  (∀ name key, (name, key) ∈ core_fields ++ [(NOTION_WATER_PROP, "water_ml")] →
     page_properties existing_page !! name = PNumber <$> new_data !! key) →
  entry_needs_update existing_page new_data = Val false.
Proof.
  intros Hnum Hsame.
  assert (Hall : ∀ name key, (name, key) ∈ core_fields ++ [(NOTION_WATER_PROP, "water_ml")] →
            ∃ v, page_properties existing_page !! name = Some (PNumber v) ∧
                 new_data !! key = Some v ∧ is_number v).
  { intros name key Hin.
    destruct (numeric_snapshot_lookup new_data key Hnum) as (v & Hv & Hn).
    - apply list_elem_of_In in Hin. apply list_elem_of_In. simpl in *.
      destruct Hin as [[= <- <-]|[[= <- <-]|[[= <- <-]|[[= <- <-]|[[= <- <-]|[[= <- <-]|[[= <- <-]|[]]]]]]]];
        tauto.
    - exists v. rewrite (Hsame name key Hin), Hv. done. }
  destruct (Hall NOTION_CALS_IN_PROP "calories_in") as (v1 & Hp1 & Hd1 & Hn1); [in_list|].
  destruct (Hall NOTION_CALS_OUT_PROP "calories_out_exercise") as (v2 & Hp2 & Hd2 & Hn2); [in_list|].
  destruct (Hall NOTION_NET_CALS_PROP "net_calories") as (v3 & Hp3 & Hd3 & Hn3); [in_list|].
  destruct (Hall NOTION_PROTEIN_PROP "protein") as (v4 & Hp4 & Hd4 & Hn4); [in_list|].
  destruct (Hall NOTION_CARBS_PROP "carbs") as (v5 & Hp5 & Hd5 & Hn5); [in_list|].
  destruct (Hall NOTION_FATS_PROP "fats") as (v6 & Hp6 & Hd6 & Hn6); [in_list|].
  destruct (Hall NOTION_WATER_PROP "water_ml") as (v7 & Hp7 & Hd7 & Hn7); [in_list|].
  rewrite entry_needs_update_typed; [|unfold number_typed; simpl|done].
  - simpl. rewrite Hp7.
    by rewrite (same_number_does_not_differ _ _ _ _ _ Hp1 Hd1 Hn1),
      (same_number_does_not_differ _ _ _ _ _ Hp2 Hd2 Hn2),
      (same_number_does_not_differ _ _ _ _ _ Hp3 Hd3 Hn3),
      (same_number_does_not_differ _ _ _ _ _ Hp4 Hd4 Hn4),
      (same_number_does_not_differ _ _ _ _ _ Hp5 Hd5 Hn5),
      (same_number_does_not_differ _ _ _ _ _ Hp6 Hd6 Hn6),
      (same_number_does_not_differ _ _ _ _ _ Hp7 Hd7 Hn7).
  - rewrite Hp1, Hp2, Hp3, Hp4, Hp5, Hp6, Hp7.
    by rewrite !typed_prop_number by done.
Qed.

(** X11: the update request carries, under each of the six property
    names, the value the snapshot holds under the matching key, the water
    property exactly when the snapshot has a water that is not null, and
    no property besides these seven. *)
Theorem update_request_carries_the_snapshot (page_id : string)
    (mfp_data : gmap string value) (u : gmap string property) :
  update_properties mfp_data = Val u →
  (∀ name key, (name, key) ∈ core_fields →
     ud_properties (make_update_data page_id u) !! name = PNumber <$> mfp_data !! key) ∧
  ud_properties (make_update_data page_id u) !! NOTION_WATER_PROP
    = match mfp_data !! "water_ml" with
      | Some VNone | None => None
      | Some water_ml => Some (PNumber water_ml)
      end ∧
  (∀ name, is_Some (ud_properties (make_update_data page_id u) !! name) →
           name ∈ numeric_props).
Proof. apply update_properties_lookup. Qed.

Lemma update_request_carries_the_snapshot_witness :
  (∀ name key, (name, key) ∈ core_fields →
     ud_properties (make_update_data "p0" update0) !! name = PNumber <$> snap0 !! key) ∧
  ud_properties (make_update_data "p0" update0) !! NOTION_WATER_PROP
    = match snap0 !! "water_ml" with
      | Some VNone | None => None
      | Some water_ml => Some (PNumber water_ml)
      end ∧
  (∀ name, is_Some (ud_properties (make_update_data "p0" update0) !! name) →
           name ∈ numeric_props).
Proof.
  apply (update_request_carries_the_snapshot "p0" snap0 update0). reflexivity.
Defined.

Lemma numeric_snapshot_water (new_data : gmap string value) :
  numeric_snapshot new_data = true →
  ∃ v, new_data !! "water_ml" = Some v ∧ v ≠ VNone.
Proof.
  intros Hnum.
  destruct (numeric_snapshot_lookup new_data "water_ml" Hnum) as (v & Hv & [q Hq]);
    [in_list|].
  exists v. split; [done|]. by intros ->.
Qed.

(** A page that stores every property of the update request for a
    snapshot with its seven numbers needs no update for it. *)
Lemma page_with_request_properties (existing_page : page)
    (mfp_data : gmap string value) (u : gmap string property) :
  numeric_snapshot mfp_data = true →
  update_properties mfp_data = Val u →
  (∀ name x, u !! name = Some x → page_properties existing_page !! name = Some x) →
  entry_needs_update existing_page mfp_data = Val false.
Proof.
  intros Hnum Hu Hstored. apply page_with_snapshot_numbers; [done|].
  destruct (update_properties_lookup _ _ Hu) as (Hcore & Hwater & _).
  destruct (numeric_snapshot_water _ Hnum) as (v & Hv & Hnn).
  intros name key Hin. apply elem_of_app in Hin as [Hin|Hin].
  - destruct (numeric_snapshot_lookup mfp_data key Hnum) as (x & Hx & _).
    { apply list_elem_of_In in Hin. apply list_elem_of_In. simpl in *.
      destruct Hin as [[= <- <-]|[[= <- <-]|[[= <- <-]|[[= <- <-]|[[= <- <-]|[[= <- <-]|[]]]]]]];
        tauto. }
    rewrite Hx. simpl. apply Hstored. by rewrite (Hcore name key Hin), Hx.
  - apply list_elem_of_singleton in Hin as [= -> ->].
    rewrite Hv. simpl. apply Hstored. rewrite Hwater, Hv. by destruct v.
Qed.

(** X12: after an update with a snapshot that holds its seven numbers, on
    a store that replaces the properties the request names and keeps the
    others, the page needs no further update for that snapshot, whatever
    it held before. *)
Theorem updated_page_is_up_to_date (page_id : string) (old : gmap string property)
    (mfp_data : gmap string value) (u : gmap string property) :
  numeric_snapshot mfp_data = true →
  update_properties mfp_data = Val u →
  entry_needs_update
    {| page_id := page_id;
       page_properties := ud_properties (make_update_data page_id u) ∪ old |}
    mfp_data
  = Val false.
Proof.
  intros Hnum Hu. apply (page_with_request_properties _ _ u Hnum Hu).
  intros name x Hx. by apply lookup_union_Some_l.
Qed.

Lemma updated_page_is_up_to_date_witness :
  entry_needs_update
    {| page_id := "p0";
       page_properties :=
         ud_properties (make_update_data "p0" update0) ∪ page_properties page0_protein |}
    snap0
  = Val false.
Proof.
  apply (updated_page_is_up_to_date "p0" (page_properties page0_protein) snap0 update0);
    reflexivity.
Defined.

(** X13: a page created from a snapshot that holds its seven numbers, and
    stored with the properties of the create request, needs no update for
    that snapshot: a second run for the same data writes nothing. *)
Theorem created_page_is_up_to_date (database_id new_id : string)
    (mfp_data : gmap string value) (c : gmap string property) :
  numeric_snapshot mfp_data = true →
  create_properties mfp_data = Val c →
  entry_needs_update
    {| page_id := new_id;
       page_properties := pd_properties (make_page_data database_id c) |}
    mfp_data
  = Val false.
Proof.
  intros Hnum Hc.
  apply create_properties_update in Hc as (u & start & Hu & _ & -> & Hnone).
  apply (page_with_request_properties _ _ u Hnum Hu).
  intros name x Hx. cbn [page_properties make_page_data pd_properties].
  rewrite lookup_insert_ne; [done|]. intros <-. congruence.
Qed.

Lemma created_page_is_up_to_date_witness :
  entry_needs_update
    {| page_id := "new";
       page_properties := pd_properties (make_page_data "db" create0) |}
    snap0
  = Val false.
Proof.
  apply (created_page_is_up_to_date "db" "new" snap0 create0); reflexivity.
Defined.

(** ** The writers' failures *)

Lemma create_properties_missing (mfp_data : gmap string value) (key : string) :
  key ∈ "date" :: core_fields.*2 → mfp_data !! key = None →
  create_properties mfp_data = Raise KeyError.
Proof.
  intros Hin Hnone. unfold create_properties, getitem. unfold mbind, res_bind.
  destruct (mfp_data !! "date") eqn:H0; [|done].
  destruct (mfp_data !! "calories_in") eqn:H1; [|done].
  destruct (mfp_data !! "calories_out_exercise") eqn:H2; [|done].
  destruct (mfp_data !! "net_calories") eqn:H3; [|done].
  destruct (mfp_data !! "protein") eqn:H4; [|done].
  destruct (mfp_data !! "carbs") eqn:H5; [|done].
  destruct (mfp_data !! "fats") eqn:H6; [|done].
  apply list_elem_of_In in Hin. simpl in Hin.
  destruct Hin as [<-|[<-|[<-|[<-|[<-|[<-|[<-|[]]]]]]]]; congruence.
Qed.

(** X14: when the data lack one of the six numeric keys, both writers
    raise [KeyError] while building the request: nothing is sent and the
    store is not touched. *)
Theorem writers_send_nothing_without_a_key {W} (R : remote W)
    (database_id page_id : string) (mfp_data : gmap string value)
    (key : string) (w : W) :
  key ∈ core_fields.*2 → mfp_data !! key = None →
  create_notion_entry R database_id mfp_data w = (Raise KeyError, w, []) ∧
  update_notion_entry R page_id mfp_data w = (Raise KeyError, w, []).
Proof.
  intros Hin Hnone. split.
  - rewrite create_notion_entry_eq, (create_properties_missing _ key); try done.
    by apply list_elem_of_further.
  - by rewrite update_notion_entry_eq, (update_properties_missing _ key).
Qed.

Lemma writers_send_nothing_without_a_key_witness :
  create_notion_entry demo "db" (delete "protein" snap0) world_dup
    = (Raise KeyError, world_dup, []) ∧
  update_notion_entry demo "p0" (delete "protein" snap0) world_dup
    = (Raise KeyError, world_dup, []).
Proof.
  apply (writers_send_nothing_without_a_key demo "db" "p0" (delete "protein" snap0)
           "protein" world_dup); [|reflexivity].
  apply list_elem_of_In. simpl. tauto.
Defined.

(** X15: a write the store rejects does not stop the run: with the request
    built, each writer sends it once and returns normally when the call
    raises, the world being the one the failed call left. *)
Theorem rejected_write_is_caught {W} (R : remote W)
    (database_id page_id : string) (mfp_data : gmap string value)
    (c : gmap string property) (w : W) :
  create_properties mfp_data = Val c →
  ∃ u, update_properties mfp_data = Val u ∧
    (∀ e w1,
       notion_create R (make_page_data database_id c) w = (Raise e, w1) →
       create_notion_entry R database_id mfp_data w
       = (Val tt, w1, [NotionCreate (make_page_data database_id c)])) ∧
    (∀ e w1,
       notion_update R (make_update_data page_id u) w = (Raise e, w1) →
       update_notion_entry R page_id mfp_data w
       = (Val tt, w1, [NotionUpdate (make_update_data page_id u)])).
Proof.
  intros Hc.
  pose proof Hc as Hc'.
  apply create_properties_update in Hc' as (u & start & Hu & Hdate & _).
  exists u. split_and!; [done| |].
  - intros e w1 Hcall. by rewrite create_notion_entry_eq, Hc, Hcall.
  - intros e w1 Hcall. by rewrite update_notion_entry_eq, Hu, Hdate, Hcall.
Qed.

Lemma rejected_write_is_caught_witness :
  ∃ u, update_properties snap0 = Val u ∧
    (∀ e w1,
       notion_create demo_write_down (make_page_data "db" create0) world_dup = (Raise e, w1) →
       create_notion_entry demo_write_down "db" snap0 world_dup
       = (Val tt, w1, [NotionCreate (make_page_data "db" create0)])) ∧
    (∀ e w1,
       notion_update demo_write_down (make_update_data "p0" u) world_dup = (Raise e, w1) →
       update_notion_entry demo_write_down "p0" snap0 world_dup
       = (Val tt, w1, [NotionUpdate (make_update_data "p0" u)])).
Proof.
  apply (rejected_write_is_caught demo_write_down "db" "p0" snap0 create0 world_dup).
  reflexivity.
Defined.

Example rejected_writes_on_demo_store :
  create_notion_entry demo_write_down "db" snap0 world_dup
    = (Val tt, world_dup, [NotionCreate (make_page_data "db" create0)]) ∧
  update_notion_entry demo_write_down "p0" snap0 world_dup
    = (Val tt, world_dup, [NotionUpdate (make_update_data "p0" update0)]).
Proof. split; reflexivity. Qed.

(** X16: [update_notion_entry] needs the date only for its messages: on
    data with the six numbers and no date it sends the update and then
    raises [KeyError], from the message after a success and from the
    message of the handler after a failure. *)
Theorem update_without_date_raises_after_sending {W} (R : remote W)
    (database_id page_id : string) (mfp_data : gmap string value)
    (u : gmap string property) (w : W) :
  update_properties mfp_data = Val u →
  mfp_data !! "date" = None →
  update_notion_entry R page_id mfp_data w
  = (Raise KeyError,
     (notion_update R (make_update_data page_id u) w).2,
     [NotionUpdate (make_update_data page_id u)]) ∧
  create_notion_entry R database_id mfp_data w = (Raise KeyError, w, []).
Proof.
  intros Hu Hdate. split.
  - by rewrite update_notion_entry_eq, Hu, Hdate.
  - rewrite create_notion_entry_eq, (create_properties_missing _ "date"); try done.
    apply list_elem_of_here.
Qed.

Lemma update_without_date_raises_after_sending_witness :
  update_notion_entry demo "p0" snap0_undated world_dup
  = (Raise KeyError,
     (notion_update demo (make_update_data "p0" update0) world_dup).2,
     [NotionUpdate (make_update_data "p0" update0)]) ∧
  create_notion_entry demo "db" snap0_undated world_dup = (Raise KeyError, world_dup, []).
Proof.
  apply (update_without_date_raises_after_sending demo "db" "p0" snap0_undated update0 world_dup);
    reflexivity.
Defined.

(** ** The decision for one date *)

Lemma reader_outcome {W} (R : remote W) (td : date) (w : W) :
  ∃ r w1 t1,
    get_mfp_data_for_date R td w = (Val r, w1, t1) ∧
    (t1 = [MfpGetDate (year td) (month td) (day td)]
     ∨ t1 = [MfpGetDate (year td) (month td) (day td); MfpGetWater td]).
Proof.
  rewrite get_mfp_data_for_date_eq.
  destruct (mfp_get_date R _ _ _ w) as [[[d|]|e] w1]; try (by eexists _, _, _; eauto).
  destruct (mfp_get_water R td w1) as [[water|e] w2]; by eexists _, _, _; eauto.
Qed.

Lemma reader_snapshot_requests {W} (R : remote W) (td : date) (w w1 : W)
    (t1 : list event) (snap : gmap string value) :
  get_mfp_data_for_date R td w = (Val (Some snap), w1, t1) →
  dict_truthy snap = true ∧
  snap !! "date" = Some (VStr (strftime td)) ∧
  ∃ u, update_properties snap = Val u ∧
       create_properties snap
       = Val (<[NOTION_DATE_PROP := PDate (VStr (strftime td))]> u).
Proof.
  intros Hget.
  apply get_mfp_data_for_date_Some in Hget as (d & w0 & water & _ & _ & Hs & _).
  by apply snapshot_requests in Hs.
Qed.

(** X17: for a date whose snapshot was read and whose record was found,
    the predicate decides: false ends the date with no write, true ends it
    with one update addressed to the record found and no create, and an
    exception of the predicate leaves [process_date] with no write. *)
Theorem found_record_is_updated_or_kept {W} (R : remote W) (database_id : string)
    (td : date) (w w1 w2 : W) (t1 t2 : list event)
    (snap : gmap string value) (pg : page) :
  get_mfp_data_for_date R td w = (Val (Some snap), w1, t1) →
  entry_exists R database_id (strftime td) w1 = (Val (Some pg), w2, t2) →
  (entry_needs_update pg snap = Val false →
   process_date R database_id td w = (Val tt, w2, t1 ++ t2)) ∧
  (entry_needs_update pg snap = Val true →
   ∃ u, update_properties snap = Val u ∧
        process_date R database_id td w
        = (Val tt, (notion_update R (make_update_data (page_id pg) u) w2).2,
           t1 ++ t2 ++ [NotionUpdate (make_update_data (page_id pg) u)])) ∧
  (∀ e, entry_needs_update pg snap = Raise e →
   process_date R database_id td w = (Raise e, w2, t1 ++ t2)).
Proof.
  intros Hget Hex.
  destruct (reader_snapshot_requests R td w w1 t1 snap Hget)
    as (Htruthy & Hdate & u & Hu & _).
  split_and!.
  - intros Hneed. by rewrite process_date_eq, Hget, Htruthy, Hex, Hneed.
  - intros Hneed. exists u. split; [done|].
    by rewrite process_date_eq, Hget, Htruthy, Hex, Hneed, update_notion_entry_eq, Hu, Hdate.
  - intros e Hneed. by rewrite process_date_eq, Hget, Htruthy, Hex, Hneed.
Qed.

Lemma found_record_is_updated_or_kept_witness :
  (entry_needs_update page0_protein snap0 = Val false →
   process_date demo "db" may17 world_dup = (Val tt, world_dup, reads0 ++ [query0])) ∧
  (entry_needs_update page0_protein snap0 = Val true →
   ∃ u, update_properties snap0 = Val u ∧
        process_date demo "db" may17 world_dup
        = (Val tt, (notion_update demo (make_update_data (page_id page0_protein) u) world_dup).2,
           reads0 ++ [query0] ++ [NotionUpdate (make_update_data (page_id page0_protein) u)])) ∧
  (∀ e, entry_needs_update page0_protein snap0 = Raise e →
   process_date demo "db" may17 world_dup = (Raise e, world_dup, reads0 ++ [query0])).
Proof.
  apply (found_record_is_updated_or_kept demo "db" may17 world_dup world_dup world_dup
           reads0 [query0] snap0 page0_protein); reflexivity.
Defined.

(** The calls one date can make. *)
Lemma process_date_trace {W} (R : remote W) (database_id : string) (td : date) (w : W) :
  ∃ reads rest,
    trace_of (process_date R database_id td w) = reads ++ rest ∧
    (reads = [MfpGetDate (year td) (month td) (day td)]
     ∨ reads = [MfpGetDate (year td) (month td) (day td); MfpGetWater td]) ∧
    (rest = []
     ∨ rest = [NotionQuery database_id "Date" (strftime td)]
     ∨ (∃ c, rest = [NotionQuery database_id "Date" (strftime td);
                     NotionCreate (make_page_data database_id c)])
     ∨ (∃ pg u, rest = [NotionQuery database_id "Date" (strftime td);
                        NotionUpdate (make_update_data (page_id pg) u)])).
Proof.
  rewrite process_date_eq.
  destruct (reader_outcome R td w) as (r & w1 & t1 & Hget & Ht1). rewrite Hget.
  destruct r as [snap|]; [|exists t1, []; rewrite app_nil_r; auto].
  destruct (reader_snapshot_requests R td w w1 t1 snap Hget)
    as (Htruthy & Hdate & u & Hu & Hc).
  rewrite Htruthy, entry_exists_eq. change NOTION_DATE_PROP with "Date".
  destruct (notion_query R database_id "Date" (strftime td) w1)
    as [[[[|first rest]|]|e] w2];
    try (rewrite create_notion_entry_eq, Hc; exists t1; eexists; split; [reflexivity|];
         split; [done|]; right; right; left; by eexists).
  destruct (entry_needs_update first snap) as [[]|e].
  - rewrite update_notion_entry_eq, Hu. exists t1. eexists. split; [reflexivity|].
    split; [done|]. right; right; right. by eexists _, _.
  - exists t1. eexists. split; [reflexivity|]. auto.
  - exists t1. eexists. split; [reflexivity|]. auto.
Qed.

Lemma writes_app (t1 t2 : list event) : writes (t1 ++ t2) = (writes t1 + writes t2)%nat.
Proof. unfold writes. by rewrite List.filter_app, length_app. Qed.

Lemma queries_app (t1 t2 : list event) : queries (t1 ++ t2) = (queries t1 + queries t2)%nat.
Proof. unfold queries. by rewrite List.filter_app, length_app. Qed.

Lemma process_date_counts {W} (R : remote W) (database_id : string) (td : date) (w : W) :
  (writes (trace_of (process_date R database_id td w)) ≤ 1)%nat ∧
  (queries (trace_of (process_date R database_id td w)) ≤ 1)%nat ∧
  (writes (trace_of (process_date R database_id td w))
   ≤ queries (trace_of (process_date R database_id td w)))%nat.
Proof.
  destruct (process_date_trace R database_id td w)
    as (reads & rest & -> & [-> | ->] & [-> | [-> | [[c ->] | (pg & u & ->)]]]);
    cbv; lia.
Qed.

(** X18: the calls of one date, whatever the provider and the store do:
    one or two calls to the provider, then nothing, or the query alone, or
    the query and one create in the configured database, or the query and
    one update; never a write without the query before it, never two
    writes. *)
Theorem process_date_calls {W} (R : remote W) (database_id : string) (td : date) (w : W) :
  (∃ reads rest,
     trace_of (process_date R database_id td w) = reads ++ rest ∧
     (reads = [MfpGetDate (year td) (month td) (day td)]
      ∨ reads = [MfpGetDate (year td) (month td) (day td); MfpGetWater td]) ∧
     (rest = []
      ∨ rest = [NotionQuery database_id "Date" (strftime td)]
      ∨ (∃ c, rest = [NotionQuery database_id "Date" (strftime td);
                      NotionCreate (make_page_data database_id c)])
      ∨ (∃ pg u, rest = [NotionQuery database_id "Date" (strftime td);
                         NotionUpdate (make_update_data (page_id pg) u)]))) ∧
  (writes (trace_of (process_date R database_id td w)) ≤ 1)%nat ∧
  (queries (trace_of (process_date R database_id td w)) ≤ 1)%nat ∧
  (writes (trace_of (process_date R database_id td w))
   ≤ queries (trace_of (process_date R database_id td w)))%nat.
Proof.
  split; [apply process_date_trace|apply process_date_counts].
Qed.

Lemma process_date_raise {W} (R : remote W)
    (database_id : string) (td : date) (w : W) (e : exn) :
  outcome_of (process_date R database_id td w) = Raise e →
  ∃ snap w1 t1 pg w2 t2,
    get_mfp_data_for_date R td w = (Val (Some snap), w1, t1) ∧
    entry_exists R database_id (strftime td) w1 = (Val (Some pg), w2, t2) ∧
    entry_needs_update pg snap = Raise e ∧
    process_date R database_id td w = (Raise e, w2, t1 ++ t2) ∧
    writes (t1 ++ t2) = 0%nat.
Proof.
  rewrite process_date_eq.
  destruct (reader_outcome R td w) as (r & w1 & t1 & Hget & Ht1). rewrite Hget.
  destruct r as [snap|]; [|discriminate].
  destruct (reader_snapshot_requests R td w w1 t1 snap Hget)
    as (Htruthy & Hdate & u & Hu & Hc).
  rewrite Htruthy.
  destruct (entry_exists R database_id (strftime td) w1) as [[r w2] t2] eqn:Hex.
  pose proof Hex as Hex'. rewrite entry_exists_eq in Hex'.
  assert (Ht2 : t2 = [NotionQuery database_id NOTION_DATE_PROP (strftime td)] ∧
                ∃ o, r = Val o).
  { destruct (notion_query R _ _ _ w1) as [[[[|first rest]|]|e'] w3];
      injection Hex' as <- <- <-; eauto. }
  destruct Ht2 as [-> [[pg|] ->]].
  - destruct (entry_needs_update pg snap) as [[]|e'] eqn:Hneed.
    + rewrite update_notion_entry_eq, Hu, Hdate. discriminate.
    + discriminate.
    + intros [= ->]. eexists snap, w1, t1, pg, w2, _. split_and!; try done.
      rewrite writes_app. by destruct Ht1 as [-> | ->].
  - rewrite create_notion_entry_eq, Hc. discriminate.
Qed.

(** X19: the only exception that leaves [process_date] is one the update
    predicate raised on the record found; the provider's and the store's
    failures never do.  When it happens the date has made no write. *)
Theorem process_date_raises_only_in_predicate {W} (R : remote W)
    (database_id : string) (td : date) (w : W) (e : exn) :
  outcome_of (process_date R database_id td w) = Raise e →
  ∃ snap w1 t1 pg w2 t2,
    get_mfp_data_for_date R td w = (Val (Some snap), w1, t1) ∧
    entry_exists R database_id (strftime td) w1 = (Val (Some pg), w2, t2) ∧
    entry_needs_update pg snap = Raise e ∧
    process_date R database_id td w = (Raise e, w2, t1 ++ t2) ∧
    writes (t1 ++ t2) = 0%nat.
Proof. apply process_date_raise. Qed.

Lemma process_date_raises_only_in_predicate_witness :
  ∃ snap w1 t1 pg w2 t2,
    get_mfp_data_for_date demo may17 world_text = (Val (Some snap), w1, t1) ∧
    entry_exists demo "db" (strftime may17) w1 = (Val (Some pg), w2, t2) ∧
    entry_needs_update pg snap = Raise KeyError ∧
    process_date demo "db" may17 world_text = (Raise KeyError, w2, t1 ++ t2) ∧
    writes (t1 ++ t2) = 0%nat.
Proof.
  apply (process_date_raises_only_in_predicate demo "db" may17 world_text KeyError).
  reflexivity.
Defined.

(** X20: with a snapshot that holds its seven numbers and a record found,
    if any, whose numeric properties are number properties, the date ends
    normally. *)
Theorem process_date_returns_on_typed_record {W} (R : remote W)
    (database_id : string) (td : date) (w w1 : W) (t1 : list event)
    (snap : gmap string value) :
  get_mfp_data_for_date R td w = (Val (Some snap), w1, t1) →
  numeric_snapshot snap = true →
  match outcome_of (entry_exists R database_id (strftime td) w1) with
  | Val (Some pg) => number_typed (page_properties pg) = true
  | _ => True
  end →
  outcome_of (process_date R database_id td w) = Val tt.
Proof.
  intros Hget Hnum Htyped.
  destruct (outcome_of (process_date R database_id td w)) as [[]|e] eqn:Hout; [done|].
  exfalso.
  apply process_date_raise in Hout
    as (snap' & w1' & t1' & pg & w2 & t2 & Hget' & Hex & Hneed & _).
  rewrite Hget in Hget'. injection Hget' as <- <- <-.
  rewrite Hex in Htyped. simpl in Htyped.
  by rewrite (entry_needs_update_typed pg snap Htyped Hnum) in Hneed.
Qed.

Lemma process_date_returns_on_typed_record_witness :
  outcome_of (process_date demo "db" may17 world_dup) = Val tt.
Proof.
  apply (process_date_returns_on_typed_record demo "db" may17 world_dup world_dup
           reads0 snap0); reflexivity.
Defined.

(** ** The loop and [main] *)

Lemma sync_dates_counts {W} (R : remote W) (database_id : string)
    (dates_to_sync : list date) (w : W) :
  (writes (trace_of (sync_dates R database_id dates_to_sync w))
   ≤ length dates_to_sync)%nat ∧
  (queries (trace_of (sync_dates R database_id dates_to_sync w))
   ≤ length dates_to_sync)%nat.
Proof.
  revert w. induction dates_to_sync as [|td rest IH]; intros w.
  - cbv. lia.
  - rewrite sync_dates_cons.
    pose proof (process_date_counts R database_id td w) as (Hw & Hq & _).
    destruct (process_date R database_id td w) as [[[[]|e] w1] t1];
      unfold trace_of in *; simpl in *; [|lia].
    specialize (IH w1).
    destruct (sync_dates R database_id rest w1) as [[r w2] t2].
    unfold trace_of in *. simpl in *. rewrite writes_app, queries_app. lia.
Qed.

(** X21: over any list of dates, whatever the provider and the store do,
    the loop sends at most one query and at most one write for each
    date. *)
Theorem sync_dates_writes_once_a_date {W} (R : remote W) (database_id : string)
    (dates_to_sync : list date) (w : W) :
  (writes (trace_of (sync_dates R database_id dates_to_sync w))
   ≤ length dates_to_sync)%nat ∧
  (queries (trace_of (sync_dates R database_id dates_to_sync w))
   ≤ length dates_to_sync)%nat.
Proof. apply sync_dates_counts. Qed.

(** X22: an exception that leaves one date ends the loop: the dates after
    it are not processed, and the trace is that of the dates before it and
    of the date itself. *)
Theorem sync_dates_stops_at_an_exception {W} (R : remote W) (database_id : string)
    (td : date) (rest : list date) (w w1 : W) (t1 : list event) (e : exn) :
  process_date R database_id td w = (Raise e, w1, t1) →
  sync_dates R database_id (td :: rest) w = (Raise e, w1, t1) ∧
  ∀ before w0,
    (∃ t0, sync_dates R database_id before w0 = (Val tt, w, t0)) →
    outcome_of (sync_dates R database_id (before ++ td :: rest) w0) = Raise e ∧
    world_of (sync_dates R database_id (before ++ td :: rest) w0) = w1.
Proof.
  intros Hp.
  assert (Hcons : sync_dates R database_id (td :: rest) w = (Raise e, w1, t1))
    by (by rewrite sync_dates_cons, Hp).
  split; [done|].
  induction before as [|d before IH]; intros w0 [t0 Hb].
  - simpl in Hb. injection Hb as -> <-. rewrite app_nil_l. by rewrite Hcons.
  - rewrite <- app_comm_cons, sync_dates_cons. rewrite sync_dates_cons in Hb.
    destruct (process_date R database_id d w0) as [[[[]|e'] w0'] t0']; [|discriminate].
    destruct (sync_dates R database_id before w0') as [[r wb] tb] eqn:Hrest.
    injection Hb as -> -> <-.
    destruct (IH w0' (ex_intro _ tb Hrest)) as [Ho Hw].
    destruct (sync_dates R database_id (before ++ td :: rest) w0') as [[r' w'] t'].
    by simpl in *.
Qed.

Lemma sync_dates_stops_at_an_exception_witness :
  sync_dates demo "db" [may17; may17] world_text
    = (Raise KeyError, world_text, reads0 ++ [query0]) ∧
  ∀ before w0,
    (∃ t0, sync_dates demo "db" before w0 = (Val tt, world_text, t0)) →
    outcome_of (sync_dates demo "db" (before ++ [may17; may17]) w0) = Raise KeyError ∧
    world_of (sync_dates demo "db" (before ++ [may17; may17]) w0) = world_text.
Proof.
  apply (sync_dates_stops_at_an_exception demo "db" may17 [may17] world_text world_text
           (reads0 ++ [query0]) KeyError).
  reflexivity.
Defined.

Lemma main_eq {W} (R : remote W) (cfg : config) (w : W) :
  main R cfg w =
  if negb (str_truthy (NOTION_TOKEN cfg)) then (Val tt, w, [])
  else if negb (str_truthy (NOTION_DATABASE_ID cfg)) then (Val tt, w, [])
  else
    match mfp_Client R w with
    | (Val _, w1) =>
        let '(r, w2, t) :=
          process_date R (default "" (NOTION_DATABASE_ID cfg)) (clock_today R w1) w1 in
        (r, w2, [MfpClient; NotionClient (default "" (NOTION_TOKEN cfg))] ++ t)
    | (Raise _, w1) => (Val tt, w1, [MfpClient])
    end.
Proof.
  unfold main.
  destruct (str_truthy (NOTION_TOKEN cfg)); [|done].
  destruct (str_truthy (NOTION_DATABASE_ID cfg)); [|done]. simpl.
  unfold get_mfp_client, try_except, call. unfold mbind, mret, M_bind, M_ret.
  destruct (mfp_Client R w) as [[[]|e] w1]; [|done]. simpl.
  destruct (process_date R _ (clock_today R w1) w1) as [[[[]|e] w2] t];
    by rewrite ?app_nil_r.
Qed.

(** X23: when the provider's client cannot be created, [main] returns
    normally after that one attempt: no Notion client, no call for any
    date, no request to the store. *)
Theorem main_stops_without_provider_client {W} (R : remote W) (cfg : config)
    (w w1 : W) (e : exn) :
  str_truthy (NOTION_TOKEN cfg) = true →
  str_truthy (NOTION_DATABASE_ID cfg) = true →
  mfp_Client R w = (Raise e, w1) →
  main R cfg w = (Val tt, w1, [MfpClient]).
Proof.
  intros Htoken Hdb Hclient. by rewrite main_eq, Htoken, Hdb, Hclient.
Qed.

Lemma main_stops_without_provider_client_witness :
  main demo_client_down cfg0 world_dup = (Val tt, world_dup, [MfpClient]).
Proof.
  apply (main_stops_without_provider_client demo_client_down cfg0 world_dup world_dup
           RemoteError); reflexivity.
Defined.

(** X24: with both settings present and the provider's client created,
    [main] creates the Notion client with the configured token and then
    processes exactly one date, the one the clock gives after that, in the
    configured database; its outcome is the outcome of that date. *)
Theorem main_processes_today {W} (R : remote W) (cfg : config)
    (token database_id : string) (w w1 : W) :
  NOTION_TOKEN cfg = Some token → token ≠ "" →
  NOTION_DATABASE_ID cfg = Some database_id → database_id ≠ "" →
  mfp_Client R w = (Val tt, w1) →
  main R cfg w =
  (let '(r, w2, t) := process_date R database_id (clock_today R w1) w1 in
   (r, w2, [MfpClient; NotionClient token] ++ t)).
Proof.
  intros Htoken Hne1 Hdb Hne2 Hclient. rewrite main_eq, Htoken, Hdb, Hclient. simpl.
  destruct (String.eqb_spec token ""); [done|].
  by destruct (String.eqb_spec database_id "").
Qed.

Lemma main_processes_today_witness :
  main demo cfg0 world_dup =
  (let '(r, w2, t) := process_date demo "db" (clock_today demo world_dup) world_dup in
   (r, w2, [MfpClient; NotionClient "secret"] ++ t)).
Proof.
  apply (main_processes_today demo cfg0 "secret" "db" world_dup world_dup);
    try reflexivity; discriminate.
Defined.

(** X25: a run of [main], whatever the configuration, the provider and the
    store, sends at most one query and at most one write, the write never
    without the query. *)
Theorem main_writes_at_most_once {W} (R : remote W) (cfg : config) (w : W) :
  (writes (trace_of (main R cfg w)) ≤ 1)%nat ∧
  (queries (trace_of (main R cfg w)) ≤ 1)%nat ∧
  (writes (trace_of (main R cfg w)) ≤ queries (trace_of (main R cfg w)))%nat.
Proof.
  rewrite main_eq.
  destruct (str_truthy (NOTION_TOKEN cfg)); [|cbv; lia].
  destruct (str_truthy (NOTION_DATABASE_ID cfg)); [|cbv; lia]. simpl.
  destruct (mfp_Client R w) as [[[]|e] w1]; [|cbv; lia].
  pose proof (process_date_counts R (default "" (NOTION_DATABASE_ID cfg))
                (clock_today R w1) w1) as Hcounts.
  destruct (process_date R _ (clock_today R w1) w1) as [[r w2] t].
  unfold trace_of in *. simpl in *.
  change (MfpClient :: NotionClient (default "" (NOTION_TOKEN cfg)) :: t)
    with ([MfpClient; NotionClient (default "" (NOTION_TOKEN cfg))] ++ t).
  rewrite writes_app, queries_app. cbn [writes queries List.filter is_write is_store_event
    andb negb length]. lia.
Qed.

(** X26: a setting that is present and empty counts as absent: [main]
    returns at once, with no call at all. *)
Theorem main_aborts_on_empty_setting {W} (R : remote W) (cfg : config) (w : W) :
  NOTION_TOKEN cfg = Some "" ∨ NOTION_DATABASE_ID cfg = Some "" →
  main R cfg w = (Val tt, w, []).
Proof.
  intros H. apply main_without_configuration. destruct H as [-> | ->]; auto.
Qed.

Lemma main_aborts_on_empty_setting_witness :
  main demo {| NOTION_TOKEN := Some "secret"; NOTION_DATABASE_ID := Some "" |} world_dup
  = (Val tt, world_dup, []).
Proof.
  apply (main_aborts_on_empty_setting demo
           {| NOTION_TOKEN := Some "secret"; NOTION_DATABASE_ID := Some "" |} world_dup).
  right. reflexivity.
Defined.
